(** * CardioGuard (app.py): feature derivation and risk-tier mapping

    A shallow embedding of the prediction logic of [app.py]: the Streamlit
    script loads a pickled classifier, reads eleven widgets, derives three
    features (bmi, bp_diff, bmi_cat), calls the classifier and maps the
    positive-class probability to one of three tiers. The display code
    around it (the labels of the select boxes, the radii of the polar
    chart, the metrics row and the formatted texts) follows.

    Python's [float] and NumPy's [float64] are IEEE-754 binary64; they are
    modelled with the executable specification of the Standard Library
    ([SpecFloat], precision 53, emax 1024), Python's [int] with [Z]. *)

From Stdlib Require Import ZArith QArith Qabs Lia List String Bool.
From Stdlib Require Import Floats.SpecFloat.
From Stdlib Require Import DecimalString DecimalPos DecimalZ Lqa.
Import ListNotations.

Local Open Scope Z_scope.
Local Open Scope string_scope.

(** ** Binary64 *)

Module F64.

Definition prec : Z := 53.
Definition emax : Z := 1024.

Definition float : Type := spec_float.

(** [float(z)] for a Python int: round to nearest, ties to even (exact
    below 2^53). *)
Definition of_int (z : Z) : float := binary_normalize prec emax z 0 false.

Definition div (x y : float) : float := SFdiv prec emax x y.
Definition mul (x y : float) : float := SFmul prec emax x y.
Definition succ (x : float) : float := SFsucc prec emax x.
Definition pred (x : float) : float := SFpred prec emax x.

(** [x < y], [x <= y] and [x > y]; each is false when an operand is NaN. *)
Definition ltb (x y : float) : bool := SFltb x y.
Definition leb (x y : float) : bool := SFleb x y.
Definition gtb (x y : float) : bool := SFltb y x.

Definition is_nan (x : float) : bool :=
  match x with S754_nan => true | _ => false end.

Definition valid (x : float) : bool := valid_binary prec emax x.

(** The rational a float denotes; infinities and NaN denote none. *)
Definition to_Q (x : float) : option Q :=
  match x with
  | S754_zero _ => Some 0%Q
  | S754_finite s m e =>
      let a := if s then Z.neg m else Z.pos m in
      Some (match e with
            | Z0 => inject_Z a
            | Z.pos p => inject_Z (a * Z.pow_pos 2 p)
            | Z.neg p => Qmake a (Pos.pow 2 p)
            end)
  | _ => None
  end.

(** The decimal literals of the script, as the doubles Python reads them
    to (the nearest double of each). *)
Definition lit_18_5 : float := S754_finite false 5207287069147136 (-48).
Definition lit_0_35 : float := S754_finite false 6305039478318694 (-54).
Definition lit_0_65 : float := S754_finite false 5854679515581645 (-53).
Definition lit_0_2 : float := S754_finite false 7205759403792794 (-55).
Definition lit_0_8 : float := S754_finite false 7205759403792794 (-53).
Definition zero : float := S754_zero false.
Definition one : float := S754_finite false 4503599627370496 (-52).

(** An order embedding of the non-NaN floats into triples of integers
    compared lexicographically: it is how [SFcompare] orders them. *)
Definition key (x : float) : Z * Z * Z :=
  match x with
  | S754_zero _ => (0, 0, 0)
  | S754_infinity false => (2, 0, 0)
  | S754_infinity true => (-2, 0, 0)
  | S754_nan => (0, 0, 0)
  | S754_finite false m e => (1, e, Z.pos m)
  | S754_finite true m e => (-1, - e, Z.neg m)
  end.

Definition key_lt (a b : Z * Z * Z) : Prop :=
  let '(a1, a2, a3) := a in
  let '(b1, b2, b3) := b in
  a1 < b1 \/ (a1 = b1 /\ (a2 < b2 \/ (a2 = b2 /\ a3 < b3))).

Definition key_le (a b : Z * Z * Z) : Prop :=
  let '(a1, a2, a3) := a in
  let '(b1, b2, b3) := b in
  a1 < b1 \/ (a1 = b1 /\ (a2 < b2 \/ (a2 = b2 /\ a3 <= b3))).

End F64.

(** ** Python values and built-ins used by the script *)

(** A cell of the one-row DataFrame: a Python [int] or a [float]. *)
Inductive pyval : Type :=
| PyInt (z : Z)
| PyFloat (f : F64.float).

(** [a / b] on two ints, for operands below 2^53 (both conversions are
    exact there, and the quotient is rounded once). *)
Definition int_truediv (a b : Z) : F64.float :=
  F64.div (F64.of_int a) (F64.of_int b).

(** [a / y] for an int [a] and a float [y]. *)
Definition int_div_float (a : Z) (y : F64.float) : F64.float :=
  F64.div (F64.of_int a) y.

(** The built-in [max] over a sequence: it keeps the first item and
    replaces it by each later item that compares greater ([item > best]).
    [None] stands for the ValueError on an empty sequence. *)
Definition py_max (xs : list F64.float) : option F64.float :=
  match xs with
  | [] => None
  | x :: rest =>
      Some (fold_left (fun best item => if F64.gtb item best then item else best)
                      rest x)
  end.

(** ** The widgets *)

(** What the eleven input widgets and the button return in one run of the
    script. [st.number_input] with int bounds and [st.selectbox] over int
    options return ints. *)
Record widgets : Type := {
  age_years : Z;
  gender : Z;
  height : Z;
  weight : Z;
  ap_hi : Z;
  ap_lo : Z;
  cholesterol : Z;
  gluc : Z;
  smoke : Z;
  alco : Z;
  active : Z;
  predict_btn : bool
}.

(** ** Feature engineering (lines 225-238) *)

Definition frame : Type := list (string * pyval).

Section FeatureEngineering.

(** [x ** y] on floats is the C library's [pow]; the script only ever
    calls it with exponent 2. *)
Variable pow : F64.float -> F64.float -> F64.float.

(** [bmi = weight / ((height / 100) ** 2)] *)
Definition bmi (w : widgets) : F64.float :=
  int_div_float (weight w) (pow (int_truediv (height w) 100) (F64.of_int 2)).

(** [bp_diff = ap_hi - ap_lo] *)
Definition bp_diff (w : widgets) : Z := ap_hi w - ap_lo w.

(** The [if bmi < 18.5 ... elif ... else] chain. *)
Definition bmi_cat (b : F64.float) : Z :=
  if F64.ltb b F64.lit_18_5 then 0
  else if F64.ltb b (F64.of_int 25) then 1
  else if F64.ltb b (F64.of_int 30) then 2
  else 3.

(** The dict handed to [pd.DataFrame]: one row, columns in insertion
    order. *)
Definition input_data (w : widgets) : frame :=
  [ ("age_years", PyInt (age_years w)); ("height", PyInt (height w));
    ("weight", PyInt (weight w));
    ("ap_hi", PyInt (ap_hi w)); ("ap_lo", PyInt (ap_lo w));
    ("bmi", PyFloat (bmi w)); ("bp_diff", PyInt (bp_diff w));
    ("gender", PyInt (gender w)); ("cholesterol", PyInt (cholesterol w));
    ("gluc", PyInt (gluc w));
    ("smoke", PyInt (smoke w)); ("active", PyInt (active w));
    ("alco", PyInt (alco w)); ("bmi_cat", PyInt (bmi_cat (bmi w))) ].

End FeatureEngineering.

(** Column lookup by name. *)
Fixpoint column (name : string) (x : frame) : option pyval :=
  match x with
  | [] => None
  | (k, v) :: rest => if String.eqb k name then Some v else column name rest
  end.

(** ** The classifier and the result of an assessment *)

(** The unpickled pipeline, seen through the two methods the script calls.
    [predict x] is [model.predict(x)[0]], [predict_proba x] is the row
    [model.predict_proba(x)[0]] of a binary classifier: the probabilities of
    class 0 and of class 1. *)
Record classifier : Type := {
  predict : frame -> Z;
  predict_proba : frame -> F64.float * F64.float
}.

(** The four names the tier branches assign (lines 245-259). *)
Record tier : Type := {
  risk_label : string;
  risk_css : string;
  emoji : string;
  msg : string
}.

Definition low_risk : tier :=
  {| risk_label := "Low Risk"; risk_css := "risk-low"; emoji := "🛡️";
     msg := "Great job! Maintain your healthy lifestyle." |}.

Definition moderate_risk : tier :=
  {| risk_label := "Moderate Risk"; risk_css := "risk-moderate"; emoji := "⚠️";
     msg := "Warning: Consider lifestyle improvements." |}.

Definition high_risk : tier :=
  {| risk_label := "High Risk"; risk_css := "risk-high"; emoji := "🚨";
     msg := "Action Required: Seek medical advice." |}.

(** [if probability < 0.35: ... elif probability < 0.65: ... else: ...] *)
Definition risk_tier (probability : F64.float) : tier :=
  if F64.ltb probability F64.lit_0_35 then low_risk
  else if F64.ltb probability F64.lit_0_65 then moderate_risk
  else high_risk.

(** What the result block displays: the badge (tier, probability) and the
    "AI Confidence" metric; [prediction] is computed and not displayed. *)
Record assessment : Type := {
  prediction : Z;
  probability : F64.float;
  confidence : F64.float;
  shown_tier : tier
}.

(** ** The script as a program with effects *)

(** What a run does that is visible from outside: unpickling the artifact,
    calling the classifier, and writing to the page. *)
Inductive event : Type :=
| JoblibLoad (path : string)
| CallPredict (x : frame)
| CallPredictProba (x : frame)
| StError (text : string)
| StResult (r : assessment).

Inductive outcome (A : Type) : Type :=
| Ok (a : A)
| Raise (e : string)
| Halt.

Arguments Ok {A} a.
Arguments Raise {A} e.
Arguments Halt {A}.

(** The state a run threads: the [st.cache_resource] slot of
    [load_prediction_model], which outlives the run, and the events so far. *)
Record state : Type := {
  cache : option classifier;
  trace : list event
}.

Definition script (A : Type) : Type := state -> outcome A * state.

Definition ret {A : Type} (a : A) : script A := fun s => (Ok a, s).

Definition bind {A B : Type} (c : script A) (k : A -> script B) : script B :=
  fun s =>
    match c s with
    | (Ok a, s') => k a s'
    | (Raise e, s') => (Raise e, s')
    | (Halt, s') => (Halt, s')
    end.

Notation "x <- c ;; k" := (bind c (fun x => k))
  (at level 61, c at next level, right associativity).
Notation "c ;;; k" := (bind c (fun _ => k))
  (at level 61, right associativity).

Definition raise {A : Type} (e : string) : script A := fun s => (Raise e, s).

(** [try: body / except Exception as e: handler e]. [st.stop] is not an
    [Exception] and passes through. *)
Definition try_except {A : Type} (body : script A) (handler : string -> script A)
  : script A :=
  fun s =>
    match body s with
    | (Raise e, s') => handler e s'
    | r => r
    end.

Definition emit (e : event) : script unit :=
  fun s => (Ok tt, {| cache := cache s; trace := trace s ++ [e] |}).

Definition st_error (text : string) : script unit := emit (StError text).

Definition st_stop {A : Type} : script A := fun s => (Halt, s).

(** A line feed. *)
Definition nl : string := String (Ascii.ascii_of_nat 10) "".

(** The text of the [st.error] of the Disclaimer tab (lines 342-346), a
    triple-quoted literal with its line feeds and indentation. *)
Definition disclaimer : string :=
  nl ++ "    **FOR EDUCATIONAL PURPOSES ONLY**" ++ nl ++
  "    " ++ nl ++
  "    This application is a demonstration of machine learning capabilities in healthcare. It is **NOT** a certified medical device and should **NOT** be used for self-diagnosis or clinical decision-making." ++ nl ++
  "    ".

Section Script.

Variable pow : F64.float -> F64.float -> F64.float.

(** What [joblib.load("cardio_pipeline.pkl")] does in this run: it raises
    (with the exception's text) or returns the pipeline. *)
Variable artifact : string + classifier.

Definition joblib_load (path : string) : script classifier :=
  emit (JoblibLoad path) ;;;
  match artifact with
  | inl e => raise e
  | inr m => ret m
  end.

(** [@st.cache_resource]: the body runs when the slot is empty, and its
    return value fills the slot; an exception fills nothing. *)
Definition load_prediction_model : script classifier :=
  fun s =>
    match cache s with
    | Some m => (Ok m, s)
    | None =>
        match joblib_load "cardio_pipeline.pkl" s with
        | (Ok m, s') => (Ok m, {| cache := Some m; trace := trace s' |})
        | r => r
        end
    end.

Definition model_predict (m : classifier) (x : frame) : script Z :=
  emit (CallPredict x) ;;; ret (predict m x).

Definition model_predict_proba (m : classifier) (x : frame)
  : script (F64.float * F64.float) :=
  emit (CallPredictProba x) ;;; ret (predict_proba m x).

Definition py_max_row (row : F64.float * F64.float) : script F64.float :=
  match py_max [fst row; snd row] with
  | Some v => ret v
  | None => raise "ValueError"
  end.

(** Lines 221-302, the block under [if predict_btn:]. *)
Definition prediction_logic (model : classifier) (w : widgets) : script unit :=
  let x := input_data pow w in
  prediction' <- model_predict model x ;;
  row <- model_predict_proba model x ;;
  let probability' := snd row in
  row' <- model_predict_proba model x ;;
  best <- py_max_row row' ;;
  let confidence' := F64.mul best (F64.of_int 100) in
  emit (StResult {| prediction := prediction';
                    probability := probability';
                    confidence := confidence';
                    shown_tier := risk_tier probability' |}).

(** The whole script, top to bottom, in its events: the load (lines
    157-161), the block under the button in the first tab (lines 221-302),
    and the [st.error] of the Disclaimer tab (line 342), which every run
    that gets past the load reaches. The widgets are what Streamlit
    returns, within their ranges; there the bmi of lines 197 and 225
    raises nothing (see [bmi_raising] below). *)
Definition app (w : widgets) : script unit :=
  model <- try_except load_prediction_model
             (fun e => st_error ("Error loading model: " ++ e) ;;; st_stop) ;;
  (if predict_btn w then prediction_logic model w else ret tt) ;;;
  st_error disclaimer.

(** One run of the script in a session whose cache slot holds [c]: the
    page starts empty. *)
Definition run (c : option classifier) (w : widgets) : outcome unit * state :=
  app w {| cache := c; trace := [] |}.

End Script.

(** ** The adapter as the specification words it *)

(** The specification asks for one [predict] and one [predict_proba] per
    assessment, the row of that one call giving both the probability and
    the confidence. This is the script with that adapter in the place of
    lines 240-242, to compare the script with; it is not in the source. *)
Section AdapterAsSpecified.

Variable pow : F64.float -> F64.float -> F64.float.
Variable artifact : string + classifier.

Definition prediction_logic_once (model : classifier) (w : widgets)
  : script unit :=
  let x := input_data pow w in
  prediction' <- model_predict model x ;;
  row <- model_predict_proba model x ;;
  best <- py_max_row row ;;
  emit (StResult {| prediction := prediction';
                    probability := snd row;
                    confidence := F64.mul best (F64.of_int 100);
                    shown_tier := risk_tier (snd row) |}).

Definition app_once (w : widgets) : script unit :=
  model <- try_except (load_prediction_model artifact)
             (fun e => st_error ("Error loading model: " ++ e) ;;; st_stop) ;;
  (if predict_btn w then prediction_logic_once model w else ret tt) ;;;
  st_error disclaimer.

Definition run_once (c : option classifier) (w : widgets)
  : outcome unit * state :=
  app_once w {| cache := c; trace := [] |}.

End AdapterAsSpecified.

(** The results a run put on the page. *)
Fixpoint results (t : list event) : list assessment :=
  match t with
  | [] => []
  | StResult r :: rest => r :: results rest
  | _ :: rest => results rest
  end.

Definition predict_calls (t : list event) : list frame :=
  flat_map (fun e => match e with CallPredict x => [x] | _ => [] end) t.

Definition predict_proba_calls (t : list event) : list frame :=
  flat_map (fun e => match e with CallPredictProba x => [x] | _ => [] end) t.

Definition load_calls (t : list event) : nat :=
  List.length (filter (fun e => match e with JoblibLoad _ => true | _ => false end) t).

Definition errors (t : list event) : list string :=
  flat_map (fun e => match e with StError s => [s] | _ => [] end) t.

(** The correctly rounded square, a C library whose [pow] rounds [x ** 2]
    correctly. *)
Definition pow_exact (x y : F64.float) : F64.float := F64.mul x x.

Definition demo_widgets : widgets :=
  {| age_years := 45; gender := 2; height := 165; weight := 70;
     ap_hi := 120; ap_lo := 80; cholesterol := 1; gluc := 1;
     smoke := 0; alco := 0; active := 1; predict_btn := true |}.

Definition demo_model : classifier :=
  {| predict := fun _ => 1;
     predict_proba := fun _ => (F64.lit_0_2, F64.lit_0_8) |}.

(** ** Runs, and what the properties are stated with *)

(** The classifier a run works with: the cached one, or else what
    unpickling gives. *)
Definition served (artifact : string + classifier) (c : option classifier)
  : string + classifier :=
  match c with
  | Some m => inr m
  | None => artifact
  end.

Definition load_events (c : option classifier) : list event :=
  match c with
  | Some _ => []
  | None => [JoblibLoad "cardio_pipeline.pkl"]
  end.

(** A second set of widgets and a second classifier, unlike the first in
    every field but the probability of class 1. *)
Definition other_widgets : widgets :=
  {| age_years := 71; gender := 1; height := 150; weight := 95;
     ap_hi := 180; ap_lo := 110; cholesterol := 3; gluc := 2;
     smoke := 1; alco := 1; active := 0; predict_btn := true |}.

Definition other_model : classifier :=
  {| predict := fun _ => 0;
     predict_proba := fun _ => (F64.lit_0_35, F64.lit_0_8) |}.

(** The integers [lo], [lo + 1], ..., [lo + n - 1]. *)
Definition Zrange (lo : Z) (n : nat) : list Z :=
  map (fun i => lo + Z.of_nat i) (seq 0 n).

(** A double and the doubles next to it on either side. *)
Definition neighbours (x : F64.float) : list F64.float :=
  [F64.pred x; x; F64.succ x].

(** What is asked of the C library: [pow x 2.0] is the correctly rounded
    square of [x] or a double next to it (an error under one unit in the
    last place). *)
Definition pow_faithful (pow : F64.float -> F64.float -> F64.float) : Prop :=
  forall x, In (pow x (F64.of_int 2)) (neighbours (F64.mul x x)).

(** [w / (h/100)^2] over the rationals. *)
Definition bmi_exact (h w : Z) : Q :=
  (inject_Z w / ((inject_Z h / 100) * (inject_Z h / 100)))%Q.

Definition tolerance : Q := (1 # 1000000000)%Q.

Definition within (tol : Q) (x : F64.float) (q : Q) : bool :=
  match F64.to_Q x with
  | Some v => Qle_bool (Qabs (v - q)) tol
  | None => false
  end.

(** For height [h]: every weight of the range, divided by every double the
    C library may return for the square, is within the tolerance. *)
Definition bmi_check (h : Z) : bool :=
  forallb
    (fun p =>
       forallb (fun w => within tolerance (int_div_float w p) (bmi_exact h w))
               (Zrange 30 171))
    (neighbours (F64.mul (int_truediv h 100) (int_truediv h 100))).

(** ** The widgets' ranges and labels (lines 191-215) *)

(** [xs[i]]: a negative index counts from the end; [None] stands for the
    IndexError outside [-len, len). *)
Definition py_getitem {A : Type} (xs : list A) (i : Z) : option A :=
  let n := Z.of_nat (List.length xs) in
  if (0 <=? i)%Z && (i <? n)%Z then nth_error xs (Z.to_nat i)
  else if (- n <=? i)%Z && (i <? 0)%Z then nth_error xs (Z.to_nat (n + i))
  else None.

Definition gender_options : list Z := [1; 2].
Definition level_options : list Z := [1; 2; 3].
Definition yes_no_options : list Z := [0; 1].

(** [lambda x: "Female" if x == 1 else "Male"] *)
Definition gender_label (x : Z) : string :=
  if (x =? 1)%Z then "Female" else "Male".

(** [lambda x: ["Normal", "Above Normal", "High"][x-1]], the labels of the
    cholesterol and glucose boxes. *)
Definition level_label (x : Z) : option string :=
  py_getitem ["Normal"; "Above Normal"; "High"] (x - 1).

(** [lambda x: "No" if x == 0 else "Yes"] *)
Definition yes_no_label (x : Z) : string :=
  if (x =? 0)%Z then "No" else "Yes".

(** What the widgets can return: [st.number_input(label, min, max, value)]
    stays within its bounds, [st.selectbox] returns one of its options. *)
Definition in_range (w : widgets) : bool :=
  (18 <=? age_years w)%Z && (age_years w <=? 100)%Z &&
  existsb (Z.eqb (gender w)) gender_options &&
  (120 <=? height w)%Z && (height w <=? 220)%Z &&
  (30 <=? weight w)%Z && (weight w <=? 200)%Z &&
  (80 <=? ap_hi w)%Z && (ap_hi w <=? 220)%Z &&
  (40 <=? ap_lo w)%Z && (ap_lo w <=? 160)%Z &&
  existsb (Z.eqb (cholesterol w)) level_options &&
  existsb (Z.eqb (gluc w)) level_options &&
  existsb (Z.eqb (smoke w)) yes_no_options &&
  existsb (Z.eqb (alco w)) yes_no_options &&
  existsb (Z.eqb (active w)) yes_no_options.

(** ** Built-ins of the display code *)

(** [a < b] on Python numbers; an int meets a float by its value (the
    conversion is exact below 2^53). *)
Definition py_lt (a b : pyval) : bool :=
  match a, b with
  | PyInt x, PyInt y => (x <? y)%Z
  | PyInt x, PyFloat y => F64.ltb (F64.of_int x) y
  | PyFloat x, PyInt y => F64.ltb x (F64.of_int y)
  | PyFloat x, PyFloat y => F64.ltb x y
  end.

(** [min(a, b)]: the first argument, unless the second compares smaller. *)
Definition py_min2 (a b : pyval) : pyval := if py_lt b a then b else a.

(** ** The result block (lines 262-302) *)

Definition categories : list string :=
  ["Age"; "BMI"; "BP"; "Cholesterol"; "Glucose"].

Section Display.

Variable pow : F64.float -> F64.float -> F64.float.

(** The radii of the polar chart (lines 278-284). *)
Definition values (w : widgets) : list pyval :=
  [ py_min2 (PyFloat (int_truediv (age_years w) 80)) (PyInt 1);
    py_min2 (PyFloat (F64.div (bmi pow w) (F64.of_int 40))) (PyInt 1);
    py_min2 (PyFloat (int_truediv (ap_hi w) 180)) (PyInt 1);
    PyFloat (int_truediv (cholesterol w) 3);
    PyFloat (int_truediv (gluc w) 3) ].

End Display.

(** The radial axis of the chart, [range_r=[0,1]]. *)
Definition on_axis (v : pyval) : bool :=
  match v with
  | PyInt z => (0 <=? z)%Z && (z <=? 1)%Z
  | PyFloat f => F64.leb F64.zero f && F64.leb f F64.one
  end.

(** The deltas of the metrics row (lines 299-301). *)
Definition bmi_status (b : F64.float) : string :=
  if F64.leb F64.lit_18_5 b && F64.ltb b (F64.of_int 25)
  then "Normal" else "Attention".

Definition bp_status (w : widgets) : string :=
  if (120 <? ap_hi w)%Z then "Elevated" else "Normal".

Definition pulse_status (w : widgets) : string :=
  if (60 <? bp_diff w)%Z then "Wide" else "Normal".

(** ** Reruns *)

(** Streamlit runs the script again on every interaction; the
    [st.cache_resource] slot is what the next run inherits. *)
Definition rerun (pow : F64.float -> F64.float -> F64.float)
    (artifact : string + classifier) (previous : outcome unit * state)
    (w : widgets) : outcome unit * state :=
  run pow artifact (cache (snd previous)) w.

(** What the widgets return on the first run, nothing touched: the
    [value] of each [st.number_input], the first option of each
    [st.selectbox], the button not pressed. *)
Definition idle_widgets : widgets :=
  {| age_years := 45; gender := 1; height := 165; weight := 70;
     ap_hi := 120; ap_lo := 80; cholesterol := 1; gluc := 1;
     smoke := 0; alco := 0; active := 0; predict_btn := false |}.

(** ** Where Python raises *)

Definition is_zero (x : F64.float) : bool :=
  match x with S754_zero _ => true | _ => false end.

Definition is_infinity (x : F64.float) : bool :=
  match x with S754_infinity _ => true | _ => false end.

Definition is_finite (x : F64.float) : bool :=
  match x with S754_zero _ | S754_finite _ _ _ => true | _ => false end.

(** [a / b] on two ints below 2^53: a zero divisor raises. *)
Definition py_int_truediv (a b : Z) : string + F64.float :=
  if (b =? 0)%Z then inl "ZeroDivisionError" else inr (int_truediv a b).

(** [a / y] for an int and a float: the int is converted first (an int too
    large for a double raises), then a zero divisor raises. *)
Definition py_int_div_float (a : Z) (y : F64.float) : string + F64.float :=
  if is_infinity (F64.of_int a) then inl "OverflowError"
  else if is_zero y then inl "ZeroDivisionError"
  else inr (int_div_float a y).

Section Raising.

Variable pow : F64.float -> F64.float -> F64.float.

(** [x ** 2]: the exponent is converted to 2.0 and the C library's [pow]
    is called; an infinite result of a finite [x] raises. *)
Definition py_pow_2 (x : F64.float) : string + F64.float :=
  let r := pow x (F64.of_int 2) in
  if is_finite x && is_infinity r then inl "OverflowError" else inr r.

(** [weight / ((height / 100) ** 2)] with its exceptions (lines 197 and
    225). *)
Definition bmi_raising (w : widgets) : string + F64.float :=
  match py_int_truediv (height w) 100 with
  | inl e => inl e
  | inr x =>
      match py_pow_2 x with
      | inl e => inl e
      | inr sq => py_int_div_float (weight w) sq
      end
  end.

End Raising.

(** ** Formatting (lines 198, 269 and 299-302) *)

(** [str(n)] of an int. *)
Definition str_int (z : Z) : string := NilZero.string_of_int (Z.to_int z).

(** The integer nearest to [num / den], for [den > 0]; a tie goes to the
    even one. *)
Definition round_half_even (num den : Z) : Z :=
  let q := num / den in
  match 2 * (num mod den) ?= den with
  | Lt => q
  | Gt => q + 1
  | Eq => if Z.even q then q else q + 1
  end.

(** The last [d] digits of [n], zeros included. *)
Fixpoint last_digits (d : nat) (n : Z) : string :=
  match d with
  | O => ""
  | S d' => last_digits d' (n / 10) ++ str_int (n mod 10)
  end.

(** [n / 10^d] written with [d] decimals; no point when [d] is 0. *)
Definition fixed (d : nat) (n : Z) : string :=
  str_int (n / 10 ^ Z.of_nat d) ++
  match d with
  | O => ""
  | S _ => "." ++ last_digits d n
  end.

Definition sign_text (s : bool) : string := if s then "-" else "".

(** [format(x, ".df")], what [f"{x:.df}"] prints: the decimal with [d]
    places nearest to the exact value of the double, a tie going to the
    even digit; a negative double keeps its sign when every digit is 0. *)
Definition format_f (d : nat) (x : F64.float) : string :=
  match x with
  | S754_nan => "nan"
  | S754_infinity s => sign_text s ++ "inf"
  | S754_zero s => sign_text s ++ fixed d 0
  | S754_finite s m e =>
      sign_text s ++
      fixed d (round_half_even (Z.pos m * 2 ^ Z.max e 0 * 10 ^ Z.of_nat d)
                               (2 ^ Z.max (- e) 0))
  end.

(** [f"{bmi:.1f}"], the caption under the weight and the "BMI Status"
    metric. *)
Definition bmi_text (b : F64.float) : string := format_f 1 b.

(** [f"{probability*100:.1f}%"] in the badge. *)
Definition probability_text (r : assessment) : string :=
  format_f 1 (F64.mul (probability r) (F64.of_int 100)) ++ "%".

(** [f"{confidence:.0f}%"], the "AI Confidence" metric. *)
Definition confidence_text (r : assessment) : string :=
  format_f 0 (confidence r) ++ "%".

(** The sign bit of a double (NaN prints none). *)
Definition signbit (x : F64.float) : bool :=
  match x with
  | S754_zero s | S754_infinity s | S754_finite s _ _ => s
  | S754_nan => false
  end.

(** [f"{bp_diff}"], the value of the "Pulse Pressure" metric. *)
Definition pulse_text (w : widgets) : string := str_int (bp_diff w).

(** Reading a decimal numeral back, the inverse of [str] on ints. *)
Definition int_of_str (s : string) : option Z :=
  option_map Z.of_int (NilZero.int_of_string s).

(** * Properties *)

(** ** The order of binary64 *)

Module F64Facts.

Import F64.

Lemma compare_cont_Eq (p q : positive) :
  Pos.compare_cont Eq p q = Pos.compare p q.
Proof. reflexivity. Qed.

(** [SFcompare] is the lexicographic comparison of the keys. *)
Lemma ltb_key (x y : float) :
  ltb x y = true <->
  is_nan x = false /\ is_nan y = false /\ key_lt (key x) (key y).
Proof.
  unfold ltb, SFltb.
  destruct x as [sx | sx | | sx mx ex], y as [sy | sy | | sy my ey];
    try destruct sx; try destruct sy; cbn -[Z.compare Pos.compare_cont];
    try rewrite compare_cont_Eq;
    try (destruct (Z.compare_spec ex ey));
    try (destruct (Pos.compare_spec mx my));
    cbn; split; intros H'; try discriminate; try reflexivity;
    try (repeat split; try reflexivity; lia);
    try (destruct H' as (_ & H' & _); discriminate);
    try (destruct H' as (H' & _); discriminate);
    try (destruct H' as (_ & _ & H'); lia).
Qed.

Lemma leb_key (x y : float) :
  leb x y = true <->
  is_nan x = false /\ is_nan y = false /\ key_le (key x) (key y).
Proof.
  unfold leb, SFleb.
  destruct x as [sx | sx | | sx mx ex], y as [sy | sy | | sy my ey];
    try destruct sx; try destruct sy; cbn -[Z.compare Pos.compare_cont];
    try rewrite compare_cont_Eq;
    try (destruct (Z.compare_spec ex ey));
    try (destruct (Pos.compare_spec mx my));
    cbn; split; intros H'; try discriminate; try reflexivity;
    try (repeat split; try reflexivity; lia);
    try (destruct H' as (_ & H' & _); discriminate);
    try (destruct H' as (H' & _); discriminate);
    try (destruct H' as (_ & _ & H'); lia).
Qed.

Lemma ltb_false_key (x y : float) :
  is_nan x = false -> is_nan y = false ->
  ltb x y = false -> key_le (key y) (key x).
Proof.
  intros Hx Hy H.
  assert (N : ~ key_lt (key x) (key y)).
  { intro K. assert (T : ltb x y = true) by (apply ltb_key; auto).
    congruence. }
  revert N. unfold key_lt, key_le.
  destruct (key x) as [[a1 a2] a3], (key y) as [[b1 b2] b3]. lia.
Qed.

(** Without NaN, [not (x < y)] is [y <= x]. *)
Lemma ltb_false_leb (x y : float) :
  is_nan x = false -> is_nan y = false ->
  ltb x y = false -> leb y x = true.
Proof.
  intros Hx Hy H. apply leb_key. auto using ltb_false_key.
Qed.

Lemma leb_ltb_false (x y : float) : leb y x = true -> ltb x y = false.
Proof.
  intros H. apply leb_key in H. destruct H as (Hy & Hx & K).
  destruct (ltb x y) eqn:E; [ | reflexivity ].
  apply ltb_key in E. destruct E as (_ & _ & L). exfalso.
  revert K L. unfold key_lt, key_le.
  destruct (key x) as [[a1 a2] a3], (key y) as [[b1 b2] b3]. lia.
Qed.

Lemma ltb_leb_trans (x y z : float) :
  ltb x y = true -> leb y z = true -> ltb x z = true.
Proof.
  intros H1 H2. apply ltb_key in H1. apply leb_key in H2. apply ltb_key.
  destruct H1 as (Hx & Hy & K1), H2 as (_ & Hz & K2).
  repeat split; auto. revert K1 K2. unfold key_lt, key_le.
  destruct (key x) as [[a1 a2] a3], (key y) as [[b1 b2] b3],
           (key z) as [[c1 c2] c3]. lia.
Qed.

Lemma leb_trans (x y z : float) :
  leb x y = true -> leb y z = true -> leb x z = true.
Proof.
  intros H1 H2. apply leb_key in H1. apply leb_key in H2. apply leb_key.
  destruct H1 as (Hx & Hy & K1), H2 as (_ & Hz & K2).
  repeat split; auto. revert K1 K2. unfold key_le.
  destruct (key x) as [[a1 a2] a3], (key y) as [[b1 b2] b3],
           (key z) as [[c1 c2] c3]. lia.
Qed.

Lemma leb_not_nan_l (x y : float) : leb x y = true -> is_nan x = false.
Proof. intros H. apply leb_key in H. tauto. Qed.

Lemma leb_not_nan_r (x y : float) : leb x y = true -> is_nan y = false.
Proof. intros H. apply leb_key in H. tauto. Qed.

Lemma ltb_not_nan_l (x y : float) : ltb x y = true -> is_nan x = false.
Proof. intros H. apply ltb_key in H. tauto. Qed.

End F64Facts.

(** ** The literals *)

(** Each literal is the double nearest to its decimal: the correctly
    rounded quotient of two exactly represented integers. *)
Lemma literals_nearest :
  F64.lit_18_5 = int_truediv 185 10 /\
  F64.lit_0_35 = int_truediv 35 100 /\
  F64.lit_0_65 = int_truediv 65 100 /\
  F64.lit_0_2 = int_truediv 2 10 /\
  F64.lit_0_8 = int_truediv 8 10 /\
  F64.one = F64.of_int 1.
Proof. vm_compute. repeat split. Qed.

(** ** Runs *)

Section Runs.

Variable pow : F64.float -> F64.float -> F64.float.

(** A run with the button pressed and a classifier at hand: three calls
    to the classifier, then the result, then the disclaimer. *)
Lemma run_pressed artifact c w m :
  served artifact c = inr m ->
  predict_btn w = true ->
  run pow artifact c w =
  (Ok tt,
   {| cache := Some m;
      trace :=
        load_events c ++
        [ CallPredict (input_data pow w);
          CallPredictProba (input_data pow w);
          CallPredictProba (input_data pow w);
          StResult
            {| prediction := predict m (input_data pow w);
               probability := snd (predict_proba m (input_data pow w));
               confidence :=
                 F64.mul
                   (let row := predict_proba m (input_data pow w) in
                    if F64.gtb (snd row) (fst row) then snd row else fst row)
                   (F64.of_int 100);
               shown_tier :=
                 risk_tier (snd (predict_proba m (input_data pow w))) |};
          StError disclaimer ] |}).
Proof.
  intros Hs Hb. unfold run, app, bind, try_except, load_prediction_model.
  destruct c as [m' | ]; cbn -[disclaimer] in Hs.
  - injection Hs as ->. cbn -[disclaimer]. rewrite Hb. reflexivity.
  - subst artifact. cbn -[disclaimer]. rewrite Hb. reflexivity.
Qed.

(** A run without the button pressed calls nothing and shows the
    disclaimer only. *)
Lemma run_idle artifact c w m :
  served artifact c = inr m ->
  predict_btn w = false ->
  run pow artifact c w =
  (Ok tt,
   {| cache := Some m; trace := load_events c ++ [StError disclaimer] |}).
Proof.
  intros Hs Hb. unfold run, app, bind, try_except, load_prediction_model.
  destruct c as [m' | ]; cbn -[disclaimer] in Hs.
  - injection Hs as ->. cbn -[disclaimer]. rewrite Hb. reflexivity.
  - subst artifact. cbn -[disclaimer]. rewrite Hb. reflexivity.
Qed.

(** A run in which unpickling raises. *)
Lemma run_load_fails e w :
  run pow (inl e) None w =
  (Halt,
   {| cache := None;
      trace := [ JoblibLoad "cardio_pipeline.pkl";
                 StError ("Error loading model: " ++ e) ] |}).
Proof. reflexivity. Qed.

Lemma results_load_events c : results (load_events c) = [].
Proof. destruct c; reflexivity. Qed.

Lemma results_app t u : results (t ++ u) = (results t ++ results u)%list.
Proof.
  induction t as [ | e t IH]; [ reflexivity | ].
  destruct e; cbn; rewrite IH; reflexivity.
Qed.

Lemma predict_calls_load_events c : predict_calls (load_events c) = [].
Proof. destruct c; reflexivity. Qed.

Lemma predict_proba_calls_load_events c :
  predict_proba_calls (load_events c) = [].
Proof. destruct c; reflexivity. Qed.

End Runs.

(** ** The risk tier *)

Section RiskTier.

Import F64 F64Facts.

Lemma lit_0_35_le_lit_0_65 : leb lit_0_35 lit_0_65 = true.
Proof. reflexivity. Qed.

(** The three branches, each with the comparisons that lead to it. *)
Lemma risk_tier_cases (p : float) :
  is_nan p = false ->
  (risk_tier p = low_risk /\ ltb p lit_0_35 = true) \/
  (risk_tier p = moderate_risk /\
   leb lit_0_35 p = true /\ ltb p lit_0_65 = true) \/
  (risk_tier p = high_risk /\ leb lit_0_65 p = true).
Proof.
  intros Hp. unfold risk_tier.
  destruct (ltb p lit_0_35) eqn:E1; [ left; auto | right ].
  destruct (ltb p lit_0_65) eqn:E2; [ left | right ]; repeat split;
    auto using ltb_false_leb.
Qed.

Lemma risk_label_iff (p : float) :
  is_nan p = false ->
  (risk_label (risk_tier p) = "Low Risk" <-> ltb p lit_0_35 = true) /\
  (risk_label (risk_tier p) = "Moderate Risk" <->
     leb lit_0_35 p = true /\ ltb p lit_0_65 = true) /\
  (risk_label (risk_tier p) = "High Risk" <-> leb lit_0_65 p = true).
Proof.
  intros Hp.
  destruct (risk_tier_cases p Hp) as [(-> & L) | [(-> & L & M) | (-> & L)]];
    cbn; (split; [ | split ]); (split; intros K);
    try discriminate; try assumption; try (split; assumption);
    try reflexivity; exfalso.
  - destruct K as (K & _). apply leb_ltb_false in K. congruence.
  - pose proof (leb_trans _ _ _ lit_0_35_le_lit_0_65 K) as K'.
    apply leb_ltb_false in K'. congruence.
  - apply leb_ltb_false in L. congruence.
  - apply leb_ltb_false in K. congruence.
  - pose proof (leb_trans _ _ _ lit_0_35_le_lit_0_65 L) as K'.
    apply leb_ltb_false in K'. congruence.
  - destruct K as (_ & K). apply leb_ltb_false in L. congruence.
Qed.

End RiskTier.

(** C1. For every probability p in [0,1] that the classifier returns for
    the positive class, the assessment shows exactly one result, and its
    tier is "Low Risk" exactly when p < 0.35, "Moderate Risk" exactly when
    0.35 <= p < 0.65 and "High Risk" exactly when p >= 0.65; the boundary
    values 0.35 and 0.65 map to "Moderate Risk" and "High Risk", and
    0.349999 and 0.649999 to the tier below. *)
Theorem C1_risk_tier_thresholds pow artifact c w m p :
  served artifact c = inr m ->
  predict_btn w = true ->
  snd (predict_proba m (input_data pow w)) = p ->
  F64.leb F64.zero p = true ->
  F64.leb p F64.one = true ->
  (exists r,
     results (trace (snd (run pow artifact c w))) = [r] /\
     probability r = p /\
     (risk_label (shown_tier r) = "Low Risk" <->
        F64.ltb p F64.lit_0_35 = true) /\
     (risk_label (shown_tier r) = "Moderate Risk" <->
        F64.leb F64.lit_0_35 p = true /\ F64.ltb p F64.lit_0_65 = true) /\
     (risk_label (shown_tier r) = "High Risk" <->
        F64.leb F64.lit_0_65 p = true)) /\
  risk_label (risk_tier F64.lit_0_35) = "Moderate Risk" /\
  risk_label (risk_tier F64.lit_0_65) = "High Risk" /\
  risk_label (risk_tier (int_truediv 349999 1000000)) = "Low Risk" /\
  risk_label (risk_tier (int_truediv 649999 1000000)) = "Moderate Risk".
Proof.
  intros Hs Hb Hp H0 H1. split; [ | vm_compute; repeat split ].
  rewrite (run_pressed pow artifact c w m Hs Hb). cbn [snd trace].
  rewrite results_app, results_load_events. cbn [results app].
  eexists. split; [ reflexivity | ]. cbn [probability shown_tier].
  rewrite Hp. split; [ reflexivity | ].
  apply risk_label_iff. exact (F64Facts.leb_not_nan_r _ _ H0).
Qed.

(** C1 at the boundary 0.35: a classifier that returns (0.65, 0.35). *)
Lemma C1_witness :
  exists r,
    results (trace (snd (run pow_exact
                           (inr {| predict := fun _ => 0;
                                   predict_proba :=
                                     fun _ => (F64.lit_0_65, F64.lit_0_35) |})
                           None demo_widgets))) = [r] /\
    risk_label (shown_tier r) = "Moderate Risk".
Proof.
  destruct (C1_risk_tier_thresholds pow_exact
              (inr {| predict := fun _ => 0;
                      predict_proba := fun _ => (F64.lit_0_65, F64.lit_0_35) |})
              None demo_widgets _ F64.lit_0_35
              eq_refl eq_refl eq_refl eq_refl eq_refl)
    as ((r & Hr & _ & _ & (_ & Hm) & _) & _).
  exists r. split; [ exact Hr | ]. apply Hm. split; reflexivity.
Defined.

(** ** The bmi buckets *)

Section BmiCat.

Import F64 F64Facts.

Lemma bucket_bounds_ordered :
  leb lit_18_5 (of_int 25) = true /\ leb (of_int 25) (of_int 30) = true.
Proof. split; reflexivity. Qed.

(** The four branches with the comparisons that lead to each; NaN falls
    through every test to the last branch. *)
Lemma bmi_cat_cases (b : float) :
  (bmi_cat b = 0 /\ ltb b lit_18_5 = true) \/
  (bmi_cat b = 1 /\ leb lit_18_5 b = true /\ ltb b (of_int 25) = true) \/
  (bmi_cat b = 2 /\ leb (of_int 25) b = true /\ ltb b (of_int 30) = true) \/
  (bmi_cat b = 3 /\ (leb (of_int 30) b = true \/ is_nan b = true)).
Proof.
  unfold bmi_cat.
  destruct (is_nan b) eqn:N.
  { destruct b; try discriminate. right; right; right. split; auto. }
  assert (T : forall k, is_nan k = false -> ltb b k = false -> leb k b = true).
  { intros k Hk Hf. now apply ltb_false_leb. }
  destruct (ltb b lit_18_5) eqn:E1; [ left; auto | right ].
  destruct (ltb b (of_int 25)) eqn:E2; [ left; auto | right ].
  destruct (ltb b (of_int 30)) eqn:E3; [ left; auto | right; auto ].
Qed.

(** Every lower bound that holds rules out the tests below it. *)
Ltac below_bounds b :=
  destruct bucket_bounds_ordered as (B1 & B2);
  repeat match goal with
         | H : leb (of_int 30) b = true |- _ =>
             lazymatch goal with
             | _ : leb (of_int 25) b = true |- _ => fail
             | _ => pose proof (leb_trans _ _ _ B2 H)
             end
         | H : leb (of_int 25) b = true |- _ =>
             lazymatch goal with
             | _ : leb lit_18_5 b = true |- _ => fail
             | _ => pose proof (leb_trans _ _ _ B1 H)
             end
         end;
  repeat match goal with
         | H : leb _ b = true |- _ => apply leb_ltb_false in H
         end;
  congruence.

Lemma bmi_cat_when (b : float) :
  (ltb b lit_18_5 = true -> bmi_cat b = 0) /\
  (leb lit_18_5 b = true -> ltb b (of_int 25) = true -> bmi_cat b = 1) /\
  (leb (of_int 25) b = true -> ltb b (of_int 30) = true -> bmi_cat b = 2) /\
  (leb (of_int 30) b = true -> bmi_cat b = 3).
Proof.
  destruct (bmi_cat_cases b)
    as [(-> & L) | [(-> & L & M) | [(-> & L & M) | (-> & [L | L])]]];
    (split; [ | split; [ | split ] ]); intros; try reflexivity; exfalso;
    try (apply leb_not_nan_r in H; congruence);
    try (apply ltb_not_nan_l in H; congruence);
    below_bounds b.
Qed.

(** Conversely each category tells the interval; category 3 is also
    where NaN lands. *)
Lemma bmi_cat_only (b : float) :
  (bmi_cat b = 0 -> ltb b lit_18_5 = true) /\
  (bmi_cat b = 1 -> leb lit_18_5 b = true /\ ltb b (of_int 25) = true) /\
  (bmi_cat b = 2 -> leb (of_int 25) b = true /\ ltb b (of_int 30) = true) /\
  (bmi_cat b = 3 -> leb (of_int 30) b = true \/ is_nan b = true).
Proof.
  destruct (bmi_cat_cases b)
    as [(E & L) | [(E & L) | [(E & L) | (E & L)]]];
    rewrite E; (split; [ | split; [ | split ] ]); intros K;
    try discriminate; assumption.
Qed.

End BmiCat.

(** C4. For every bmi, [bmi_cat] is 0 when bmi < 18.5, 1 when
    18.5 <= bmi < 25, 2 when 25 <= bmi < 30 and 3 when bmi >= 30; the
    lower bound of each bucket belongs to it, so 18.5 maps to 1, 25.0 to 2
    and 30.0 to 3 (and 18.49, 24.99, 29.99 to 0, 1, 2). The column the
    classifier receives is the bucket of the derived bmi. *)
Theorem C4_bmi_cat_buckets pow (w : widgets) (b : F64.float) :
  (F64.ltb b F64.lit_18_5 = true -> bmi_cat b = 0) /\
  (F64.leb F64.lit_18_5 b = true -> F64.ltb b (F64.of_int 25) = true ->
   bmi_cat b = 1) /\
  (F64.leb (F64.of_int 25) b = true -> F64.ltb b (F64.of_int 30) = true ->
   bmi_cat b = 2) /\
  (F64.leb (F64.of_int 30) b = true -> bmi_cat b = 3) /\
  bmi_cat F64.lit_18_5 = 1 /\
  bmi_cat (F64.of_int 25) = 2 /\
  bmi_cat (F64.of_int 30) = 3 /\
  bmi_cat (int_truediv 1849 100) = 0 /\
  bmi_cat (int_truediv 2499 100) = 1 /\
  bmi_cat (int_truediv 2999 100) = 2 /\
  column "bmi_cat" (input_data pow w) = Some (PyInt (bmi_cat (bmi pow w))).
Proof.
  destruct (bmi_cat_when b) as (H0 & H1 & H2 & H3).
  repeat (split; [ assumption | ]).
  repeat (split; [ reflexivity | ]). reflexivity.
Qed.

(** C10. The bucketing is total: every bmi, finite or not, gets one
    category, and it is one of 0, 1, 2, 3; so does the bmi derived from
    any widgets. *)
Theorem C10_bmi_cat_total pow (w : widgets) (b : F64.float) :
  0 <= bmi_cat b <= 3 /\
  In (bmi_cat b) [0; 1; 2; 3] /\
  (exists k, column "bmi_cat" (input_data pow w) = Some (PyInt k) /\
             0 <= k <= 3).
Proof.
  assert (T : forall x, 0 <= bmi_cat x <= 3).
  { intros x. unfold bmi_cat.
    repeat match goal with |- context [if ?t then _ else _] => destruct t end;
      lia. }
  split; [ apply T | split ].
  - pose proof (T b) as Hb. cbn.
    assert (E : bmi_cat b = 0 \/ bmi_cat b = 1 \/ bmi_cat b = 2 \/ bmi_cat b = 3)
      by lia.
    intuition auto.
  - exists (bmi_cat (bmi pow w)). split; [ reflexivity | apply T ].
Qed.

(** C6. [bp_diff] is [ap_hi - ap_lo] by integer subtraction, with no
    clamping: it is negative when [ap_hi < ap_lo], as for the in-range pair
    80 and 160. *)
Theorem C6_bp_diff_plain pow (w : widgets) :
  bp_diff w = ap_hi w - ap_lo w /\
  column "bp_diff" (input_data pow w) = Some (PyInt (ap_hi w - ap_lo w)) /\
  (ap_hi w < ap_lo w -> bp_diff w < 0) /\
  (ap_hi w = 80 -> ap_lo w = 160 -> bp_diff w = -80).
Proof.
  unfold bp_diff. repeat split; try reflexivity; intros; lia.
Qed.

(** C7. The classifier receives exactly 14 columns, named and ordered
    age_years, height, weight, ap_hi, ap_lo, bmi, bp_diff, gender,
    cholesterol, gluc, smoke, active, alco, bmi_cat; the eleven raw fields
    are the widgets' values unchanged. Every call of the classifier in a
    run gets this frame. *)
Theorem C7_feature_record pow artifact c (w : widgets) :
  map fst (input_data pow w) =
    [ "age_years"; "height"; "weight"; "ap_hi"; "ap_lo"; "bmi"; "bp_diff";
      "gender"; "cholesterol"; "gluc"; "smoke"; "active"; "alco"; "bmi_cat" ] /\
  List.length (input_data pow w) = 14%nat /\
  column "age_years" (input_data pow w) = Some (PyInt (age_years w)) /\
  column "height" (input_data pow w) = Some (PyInt (height w)) /\
  column "weight" (input_data pow w) = Some (PyInt (weight w)) /\
  column "ap_hi" (input_data pow w) = Some (PyInt (ap_hi w)) /\
  column "ap_lo" (input_data pow w) = Some (PyInt (ap_lo w)) /\
  column "gender" (input_data pow w) = Some (PyInt (gender w)) /\
  column "cholesterol" (input_data pow w) = Some (PyInt (cholesterol w)) /\
  column "gluc" (input_data pow w) = Some (PyInt (gluc w)) /\
  column "smoke" (input_data pow w) = Some (PyInt (smoke w)) /\
  column "active" (input_data pow w) = Some (PyInt (active w)) /\
  column "alco" (input_data pow w) = Some (PyInt (alco w)) /\
  column "bmi" (input_data pow w) = Some (PyFloat (bmi pow w)) /\
  (forall x,
     In x (predict_calls (trace (snd (run pow artifact c w))) ++
           predict_proba_calls (trace (snd (run pow artifact c w))))%list ->
     x = input_data pow w).
Proof.
  repeat (split; [ reflexivity | ]).
  intros x Hx.
  destruct (served artifact c) as [e | m] eqn:Hs.
  - destruct c as [m' | ]; [ discriminate | ]. cbn in Hs. subst artifact.
    rewrite run_load_fails in Hx. cbn in Hx. contradiction.
  - destruct (predict_btn w) eqn:Hb.
    + rewrite (run_pressed pow artifact c w m Hs Hb) in Hx.
      cbn [snd trace] in Hx. unfold predict_calls, predict_proba_calls in Hx.
      rewrite !flat_map_app in Hx.
      fold (predict_calls (load_events c)) in Hx.
      fold (predict_proba_calls (load_events c)) in Hx.
      rewrite predict_calls_load_events, predict_proba_calls_load_events in Hx.
      cbn in Hx. intuition auto.
    + rewrite (run_idle pow artifact c w m Hs Hb) in Hx.
      cbn [snd trace] in Hx. unfold predict_calls, predict_proba_calls in Hx.
      rewrite !flat_map_app in Hx.
      fold (predict_calls (load_events c)) in Hx.
      fold (predict_proba_calls (load_events c)) in Hx.
      rewrite predict_calls_load_events, predict_proba_calls_load_events in Hx.
      cbn in Hx. contradiction.
Qed.

(** ** Calls of the classifier *)

(** A run of the adapter of the specification with the button pressed:
    one call of each operation. *)
Lemma run_once_pressed pow artifact c w m :
  served artifact c = inr m ->
  predict_btn w = true ->
  run_once pow artifact c w =
  (Ok tt,
   {| cache := Some m;
      trace :=
        load_events c ++
        [ CallPredict (input_data pow w);
          CallPredictProba (input_data pow w);
          StResult
            {| prediction := predict m (input_data pow w);
               probability := snd (predict_proba m (input_data pow w));
               confidence :=
                 F64.mul
                   (let row := predict_proba m (input_data pow w) in
                    if F64.gtb (snd row) (fst row) then snd row else fst row)
                   (F64.of_int 100);
               shown_tier :=
                 risk_tier (snd (predict_proba m (input_data pow w))) |};
          StError disclaimer ] |}).
Proof.
  intros Hs Hb.
  unfold run_once, app_once, bind, try_except, load_prediction_model.
  destruct c as [m' | ]; cbn -[disclaimer] in Hs.
  - injection Hs as ->. cbn -[disclaimer]. rewrite Hb. reflexivity.
  - subst artifact. cbn -[disclaimer]. rewrite Hb. reflexivity.
Qed.

Lemma load_calls_app t u :
  load_calls (t ++ u) = (load_calls t + load_calls u)%nat.
Proof. unfold load_calls. rewrite filter_app. apply length_app. Qed.

Lemma errors_app t u : errors (t ++ u) = (errors t ++ errors u)%list.
Proof. unfold errors. apply flat_map_app. Qed.

(** C3. In every assessment the script invokes [predict] exactly once and
    [predict_proba] exactly once logically: [predict_proba] is called, every
    call of it carries the one derived frame and so returns the one row,
    and the run cannot be told, by its outcome, its result, its errors,
    its loads or the cache, from a run of the adapter that makes one call
    of each operation. *)
Theorem C3_classifier_calls pow artifact c w m :
  served artifact c = inr m ->
  predict_btn w = true ->
  predict_calls (trace (snd (run pow artifact c w))) = [input_data pow w] /\
  predict_proba_calls (trace (snd (run pow artifact c w))) <> [] /\
  (forall x,
     In x (predict_proba_calls (trace (snd (run pow artifact c w)))) ->
     x = input_data pow w /\
     predict_proba m x = predict_proba m (input_data pow w)) /\
  predict_calls (trace (snd (run_once pow artifact c w))) =
    [input_data pow w] /\
  predict_proba_calls (trace (snd (run_once pow artifact c w))) =
    [input_data pow w] /\
  fst (run pow artifact c w) = fst (run_once pow artifact c w) /\
  results (trace (snd (run pow artifact c w))) =
    results (trace (snd (run_once pow artifact c w))) /\
  errors (trace (snd (run pow artifact c w))) =
    errors (trace (snd (run_once pow artifact c w))) /\
  load_calls (trace (snd (run pow artifact c w))) =
    load_calls (trace (snd (run_once pow artifact c w))) /\
  cache (snd (run pow artifact c w)) =
    cache (snd (run_once pow artifact c w)).
Proof.
  intros Hs Hb. rewrite (run_pressed pow artifact c w m Hs Hb).
  rewrite (run_once_pressed pow artifact c w m Hs Hb).
  cbn [fst snd trace cache].
  rewrite !results_app, !errors_app, !load_calls_app.
  unfold predict_calls, predict_proba_calls.
  rewrite !flat_map_app.
  fold (predict_calls (load_events c)).
  fold (predict_proba_calls (load_events c)).
  rewrite predict_calls_load_events, predict_proba_calls_load_events.
  cbn -[disclaimer].
  repeat split; try discriminate.
  - destruct H as [<- | [<- | []]]; reflexivity.
  - destruct H as [<- | [<- | []]]; reflexivity.
Qed.

Lemma C3_witness :
  predict_calls (trace (snd (run pow_exact (inr demo_model) None demo_widgets)))
    = [input_data pow_exact demo_widgets] /\
  results (trace (snd (run pow_exact (inr demo_model) None demo_widgets))) =
    results (trace (snd (run_once pow_exact (inr demo_model) None
                           demo_widgets))).
Proof.
  destruct (C3_classifier_calls pow_exact (inr demo_model) None demo_widgets
              demo_model eq_refl eq_refl)
    as (H1 & _ & _ & _ & _ & _ & H2 & _).
  exact (conj H1 H2).
Defined.

(** Physically the script makes the second call: [predict_proba] appears
    twice in the trace of an assessment, both times with the one frame. *)
Lemma predict_proba_called_twice pow artifact c w m :
  served artifact c = inr m ->
  predict_btn w = true ->
  predict_proba_calls (trace (snd (run pow artifact c w))) =
    [input_data pow w; input_data pow w].
Proof.
  intros Hs Hb. rewrite (run_pressed pow artifact c w m Hs Hb).
  cbn [snd trace]. unfold predict_proba_calls. rewrite flat_map_app.
  fold (predict_proba_calls (load_events c)).
  rewrite predict_proba_calls_load_events. reflexivity.
Qed.

(** ** Load failure *)

(** The failing run from any page: it adds the load and the error, and
    nothing else. *)
Lemma app_load_fails pow e w t0 :
  app pow (inl e) w {| cache := None; trace := t0 |} =
  (Halt,
   {| cache := None;
      trace := t0 ++ [ JoblibLoad "cardio_pipeline.pkl";
                       StError ("Error loading model: " ++ e) ] |}).
Proof.
  unfold app, bind, try_except, load_prediction_model, joblib_load, emit,
    st_error, st_stop, raise.
  cbn -[disclaimer]. rewrite <- app_assoc. reflexivity.
Qed.

(** C8, as the code has it. When unpickling the artifact raises, the run
    in which it does shows the error and nothing else, stops there, never
    calls the classifier and adds no result to the page, whatever the
    widgets hold and whatever the page held; the disclaimer is not
    reached. Nothing is cached, so the failure lasts for that run only:
    the next run unpickles again, halts again if that fails, and shows an
    assessment if it succeeds and the button is pressed. *)
Theorem C8_load_failure pow e artifact' (w w' : widgets) (t0 : list event) :
  fst (run pow (inl e) None w) = Halt /\
  trace (snd (run pow (inl e) None w)) =
    [ JoblibLoad "cardio_pipeline.pkl";
      StError ("Error loading model: " ++ e) ] /\
  results (trace (snd (run pow (inl e) None w))) = [] /\
  errors (trace (snd (run pow (inl e) None w))) =
    [ "Error loading model: " ++ e ] /\
  load_calls (trace (snd (run pow (inl e) None w))) = 1%nat /\
  predict_calls (trace (snd (run pow (inl e) None w))) = [] /\
  predict_proba_calls (trace (snd (run pow (inl e) None w))) = [] /\
  cache (snd (run pow (inl e) None w)) = None /\
  results (trace (snd (app pow (inl e) w {| cache := None; trace := t0 |}))) =
    results t0 /\
  rerun pow artifact' (run pow (inl e) None w) w' = run pow artifact' None w' /\
  load_calls (trace (snd (rerun pow artifact' (run pow (inl e) None w) w')))
    = 1%nat /\
  (forall e', artifact' = inl e' ->
     fst (rerun pow artifact' (run pow (inl e) None w) w') = Halt /\
     errors (trace (snd (rerun pow artifact' (run pow (inl e) None w) w'))) =
       [ "Error loading model: " ++ e' ]) /\
  (forall m, artifact' = inr m -> predict_btn w' = true ->
     fst (rerun pow artifact' (run pow (inl e) None w) w') = Ok tt /\
     exists r,
       results (trace (snd (rerun pow artifact' (run pow (inl e) None w) w')))
         = [r] /\
       probability r = snd (predict_proba m (input_data pow w'))).
Proof.
  rewrite app_load_fails. unfold rerun. rewrite run_load_fails.
  cbn [fst snd trace cache].
  repeat split.
  - rewrite results_app, app_nil_r. reflexivity.
  - destruct artifact' as [e' | m].
    + rewrite run_load_fails. reflexivity.
    + destruct (predict_btn w') eqn:Hb.
      * rewrite (run_pressed pow (inr m) None w' m eq_refl Hb). reflexivity.
      * rewrite (run_idle pow (inr m) None w' m eq_refl Hb). reflexivity.
  - subst artifact'. rewrite run_load_fails. reflexivity.
  - subst artifact'. rewrite run_load_fails. reflexivity.
  - subst artifact'. rewrite (run_pressed pow (inr m) None w' m eq_refl H0).
    reflexivity.
  - subst artifact'. rewrite (run_pressed pow (inr m) None w' m eq_refl H0).
    cbn [snd trace load_events app results]. eexists.
    split; reflexivity.
Qed.

(** C8 as stated fails: after a failed load the session goes on. The next
    run, with the artifact in place, unpickles it (a retry) and shows an
    assessment. *)
Lemma C8_counterexample :
  fst (run pow_exact (inl "No such file") None demo_widgets) = Halt /\
  load_calls
    (trace (snd (rerun pow_exact (inr demo_model)
                   (run pow_exact (inl "No such file") None demo_widgets)
                   demo_widgets))) = 1%nat /\
  map (fun r => risk_label (shown_tier r))
    (results
       (trace (snd (rerun pow_exact (inr demo_model)
                      (run pow_exact (inl "No such file") None demo_widgets)
                      demo_widgets)))) = ["High Risk"].
Proof. vm_compute. repeat split. Qed.

(** ** Determinism *)

(** C9. The tier and its message depend on the positive-class probability
    alone: two assessments, whatever their widgets, classifiers, caches and
    C libraries, whose classifiers return the same probability show the
    same tier (label, style, emoji and message). Deriving from the same
    widgets twice gives the same frame. *)
Theorem C9_tier_depends_on_probability_only
        pow1 pow2 artifact1 artifact2 c1 c2 w1 w2 m1 m2 :
  served artifact1 c1 = inr m1 ->
  served artifact2 c2 = inr m2 ->
  predict_btn w1 = true ->
  predict_btn w2 = true ->
  snd (predict_proba m1 (input_data pow1 w1)) =
  snd (predict_proba m2 (input_data pow2 w2)) ->
  map shown_tier (results (trace (snd (run pow1 artifact1 c1 w1)))) =
  map shown_tier (results (trace (snd (run pow2 artifact2 c2 w2)))) /\
  map shown_tier (results (trace (snd (run pow1 artifact1 c1 w1)))) =
    [risk_tier (snd (predict_proba m1 (input_data pow1 w1)))] /\
  (w1 = w2 -> input_data pow1 w1 = input_data pow1 w2).
Proof.
  intros Hs1 Hs2 Hb1 Hb2 Hp.
  rewrite (run_pressed pow1 artifact1 c1 w1 m1 Hs1 Hb1).
  rewrite (run_pressed pow2 artifact2 c2 w2 m2 Hs2 Hb2).
  cbn [snd trace]. rewrite !results_app, !results_load_events.
  cbn [results app map shown_tier]. rewrite Hp.
  repeat split. intros ->. reflexivity.
Qed.

Lemma C9_witness :
  map shown_tier
      (results (trace (snd (run pow_exact (inr demo_model) None demo_widgets)))) =
  map shown_tier
      (results (trace (snd (run pow_exact (inl "unused") (Some other_model)
                              other_widgets)))).
Proof.
  exact (proj1 (C9_tier_depends_on_probability_only
                  pow_exact pow_exact (inr demo_model) (inl "unused")
                  None (Some other_model) demo_widgets other_widgets
                  demo_model other_model
                  eq_refl eq_refl eq_refl eq_refl eq_refl)).
Defined.

(** ** The bmi formula *)

Lemma Zrange_In (lo : Z) (n : nat) (z : Z) :
  lo <= z < lo + Z.of_nat n -> In z (Zrange lo n).
Proof.
  intros Hz. unfold Zrange. apply in_map_iff.
  exists (Z.to_nat (z - lo)). split; [ lia | ].
  apply in_seq. lia.
Qed.

(** The check succeeds at each of the 101 heights. *)
Lemma bmi_check_all_true : forallb bmi_check (Zrange 120 101) = true.
Proof. vm_compute. reflexivity. Qed.

Lemma pow_exact_faithful : pow_faithful pow_exact.
Proof. intros x. right. left. reflexivity. Qed.

(** C5. For every height in [120,220] and weight in [30,200], with a C
    library whose [pow] errs by less than one unit in the last place, the
    derived bmi is a finite double within 1e-9 of w / (h/100)^2. *)
Theorem C5_bmi_formula pow (w : widgets) :
  pow_faithful pow ->
  120 <= height w <= 220 ->
  30 <= weight w <= 200 ->
  exists v : Q,
    F64.to_Q (bmi pow w) = Some v /\
    (Qabs (v - bmi_exact (height w) (weight w)) <= tolerance)%Q.
Proof.
  intros Hpow Hh Hw.
  pose proof bmi_check_all_true as A.
  rewrite forallb_forall in A.
  assert (Ih : In (height w) (Zrange 120 101)) by (apply Zrange_In; lia).
  assert (Iw : In (weight w) (Zrange 30 171)) by (apply Zrange_In; lia).
  specialize (A (height w) Ih).
  unfold bmi_check in A. rewrite forallb_forall in A.
  specialize (A _ (Hpow (int_truediv (height w) 100))).
  rewrite forallb_forall in A.
  specialize (A (weight w) Iw).
  unfold within in A. fold (bmi pow w) in A.
  destruct (F64.to_Q (bmi pow w)) as [v | ]; [ | discriminate ].
  exists v. split; [ reflexivity | ]. now apply Qle_bool_iff.
Qed.

(** C5 at height 165 and weight 70: the bmi is 25.71 to two decimals. *)
Lemma C5_witness :
  exists v : Q,
    F64.to_Q (bmi pow_exact demo_widgets) = Some v /\
    (Qabs (v - bmi_exact 165 70) <= tolerance)%Q.
Proof.
  apply (C5_bmi_formula pow_exact demo_widgets pow_exact_faithful);
    cbn; lia.
Defined.

Lemma bmi_demo_rounds_to_25_71 :
  exists v : Q,
    F64.to_Q (bmi pow_exact demo_widgets) = Some v /\
    (2571 # 100 <= v)%Q /\ (v < 2572 # 100)%Q /\
    bmi_cat (bmi pow_exact demo_widgets) = 2 /\
    bp_diff demo_widgets = 40.
Proof.
  eexists. split; [ vm_compute; reflexivity | ].
  repeat split; vm_compute; congruence.
Qed.

(** ** Rounding in binary64 *)

Module F64Round.

Import F64 F64Facts.

Lemma digits2_pos_size (p : positive) : digits2_pos p = Pos.size p.
Proof. induction p; cbn; congruence. Qed.

Lemma Zdigits2_bounds (p : positive) :
  2 ^ (Zdigits2 (Z.pos p) - 1) <= Z.pos p < 2 ^ Zdigits2 (Z.pos p).
Proof.
  cbn [Zdigits2]. rewrite digits2_pos_size. split.
  - pose proof (Pos.size_le p) as H.
    assert (E : Z.pos (Pos.size p) = Z.succ (Z.pos (Pos.size p) - 1)) by lia.
    assert (L : 2 ^ Z.pos (Pos.size p) <= Z.pos p~0).
    { rewrite <- Pos2Z.inj_pow. lia. }
    rewrite E, Z.pow_succ_r in L by lia. lia.
  - pose proof (Pos.size_gt p) as H.
    rewrite <- Pos2Z.inj_pow. lia.
Qed.

Lemma shr_m_shr_1 (mrs : shr_record) :
  0 <= shr_m mrs -> shr_m (shr_1 mrs) = shr_m mrs / 2.
Proof.
  destruct mrs as [m r s]. cbn [shr_m]. intros Hm.
  destruct m as [ | [p | p | ] | p]; cbn [shr_1 shr_m]; try lia; try reflexivity.
  - rewrite Pos2Z.inj_xI. apply Z.div_unique with (r := 1); lia.
  - rewrite Pos2Z.inj_xO. apply Z.div_unique with (r := 0); lia.
Qed.

Lemma shr_m_shr_1_nonneg (mrs : shr_record) :
  0 <= shr_m mrs -> 0 <= shr_m (shr_1 mrs).
Proof.
  intros H. rewrite shr_m_shr_1 by assumption. apply Z.div_pos; lia.
Qed.

Lemma shr_m_iter_pos (n : positive) :
  forall mrs, 0 <= shr_m mrs ->
    shr_m (iter_pos shr_1 n mrs) = shr_m mrs / 2 ^ Z.pos n.
Proof.
  induction n as [n IH | n IH | ]; intros mrs Hm; cbn [iter_pos].
  - assert (H1 : 0 <= shr_m (shr_1 mrs)) by now apply shr_m_shr_1_nonneg.
    assert (H2 : 0 <= shr_m (iter_pos shr_1 n (shr_1 mrs))).
    { rewrite IH by assumption. apply Z.div_pos; lia. }
    rewrite IH, IH, shr_m_shr_1 by assumption.
    assert (P : 0 < 2 ^ Z.pos n) by (apply Z.pow_pos_nonneg; lia).
    rewrite !Z.div_div by lia. f_equal.
    replace (Z.pos n~1) with (Z.pos n + Z.pos n + 1) by lia.
    rewrite !Z.pow_add_r by lia. lia.
  - assert (H2 : 0 <= shr_m (iter_pos shr_1 n mrs)).
    { rewrite IH by assumption. apply Z.div_pos; lia. }
    rewrite IH, IH by assumption.
    assert (P : 0 < 2 ^ Z.pos n) by (apply Z.pow_pos_nonneg; lia).
    rewrite !Z.div_div by lia. f_equal.
    replace (Z.pos n~0) with (Z.pos n + Z.pos n) by lia.
    rewrite !Z.pow_add_r by lia. lia.
  - now apply shr_m_shr_1.
Qed.

Lemma shr_spec (mrs : shr_record) (e n : Z) :
  0 <= shr_m mrs ->
  shr_m (fst (shr mrs e n)) = shr_m mrs / 2 ^ Z.max 0 n /\
  snd (shr mrs e n) = e + Z.max 0 n.
Proof.
  intros Hm. destruct n as [ | p | p]; cbn [shr fst snd].
  - rewrite Z.max_id. cbn. rewrite Z.div_1_r. lia.
  - rewrite Z.max_r by lia. split; [ now apply shr_m_iter_pos | reflexivity ].
  - rewrite Z.max_l by lia. cbn. rewrite Z.div_1_r. lia.
Qed.

Lemma shr_m_of_loc (m : Z) (l : location) : shr_m (shr_record_of_loc m l) = m.
Proof. destruct l as [ | [ | | ]]; reflexivity. Qed.

Lemma round_nearest_even_cases (m : Z) (l : location) :
  round_nearest_even m l = m \/ round_nearest_even m l = m + 1.
Proof.
  destruct l as [ | [ | | ]]; cbn; auto. destruct (Z.even m); auto.
Qed.

(** What [binary_round_aux] does to a nonnegative mantissa: a shift to the
    target exponent, a rounding step of at most one unit, and one more
    shift when the rounding carried into a new bit. *)
Lemma binary_round_aux_cases (prec emax : Z) (sx : bool) (mx ex : Z) (lx : location) :
  0 <= mx ->
  exists m1 mr m2 e1 e2 : Z,
    e1 = ex + Z.max 0 (fexp prec emax (Zdigits2 mx + ex) - ex) /\
    m1 = mx / 2 ^ Z.max 0 (fexp prec emax (Zdigits2 mx + ex) - ex) /\
    (mr = m1 \/ mr = m1 + 1) /\
    e2 = e1 + Z.max 0 (fexp prec emax (Zdigits2 mr + e1) - e1) /\
    m2 = mr / 2 ^ Z.max 0 (fexp prec emax (Zdigits2 mr + e1) - e1) /\
    binary_round_aux prec emax sx mx ex lx =
      match m2 with
      | Z0 => S754_zero sx
      | Z.pos m => if (e2 <=? emax - prec)%Z then S754_finite sx m e2
                   else S754_infinity sx
      | Z.neg _ => S754_nan
      end.
Proof.
  intros Hm. unfold binary_round_aux, shr_fexp.
  destruct (shr (shr_record_of_loc mx lx) ex
              (fexp prec emax (Zdigits2 mx + ex) - ex)) as [mrs1 e1] eqn:S1.
  pose proof (shr_spec (shr_record_of_loc mx lx) ex
                (fexp prec emax (Zdigits2 mx + ex) - ex)) as A1.
  rewrite shr_m_of_loc, S1 in A1. cbn [fst snd] in A1.
  destruct (A1 Hm) as (M1 & E1).
  set (mr := round_nearest_even (shr_m mrs1) (loc_of_shr_record mrs1)).
  assert (Hmr : mr = shr_m mrs1 \/ mr = shr_m mrs1 + 1)
    by apply round_nearest_even_cases.
  assert (H1 : 0 <= shr_m mrs1).
  { rewrite M1. apply Z.div_pos; [ assumption | ]. apply Z.pow_pos_nonneg; lia. }
  destruct (shr (shr_record_of_loc mr loc_Exact) e1
              (fexp prec emax (Zdigits2 mr + e1) - e1)) as [mrs2 e2] eqn:S2.
  pose proof (shr_spec (shr_record_of_loc mr loc_Exact) e1
                (fexp prec emax (Zdigits2 mr + e1) - e1)) as A2.
  rewrite shr_m_of_loc, S2 in A2. cbn [fst snd] in A2.
  destruct A2 as (M2 & E2); [ lia | ].
  exists (shr_m mrs1), mr, (shr_m mrs2), e1, e2.
  repeat split; auto.
Qed.


Lemma pow2_digits_le (p : positive) (k : Z) :
  0 <= k -> Z.pos p < 2 ^ k -> Zdigits2 (Z.pos p) <= k.
Proof.
  intros Hk Hp. pose proof (Zdigits2_bounds p) as [L _].
  assert (D : 0 < Zdigits2 (Z.pos p)) by (cbn; lia).
  apply Z.lt_succ_r. apply Z.lt_succ_r.
  replace (Z.succ k) with (k + 1) by lia.
  destruct (Z.le_gt_cases (Zdigits2 (Z.pos p)) k) as [ | G]; [ lia | exfalso ].
  assert (2 ^ k <= 2 ^ (Zdigits2 (Z.pos p) - 1)) by (apply Z.pow_le_mono_r; lia).
  lia.
Qed.

Lemma of_int_100 : of_int 100 = S754_finite false 7036874417766400 (-46).
Proof. reflexivity. Qed.

Lemma valid_finite (s : bool) (mx : positive) (ex : Z) :
  valid (S754_finite s mx ex) = true ->
  Z.max (Zdigits2 (Z.pos mx) + ex - 53) (-1074) = ex /\ ex <= 971.
Proof.
  unfold valid, valid_binary, bounded, canonical_mantissa, fexp, emin, prec, emax.
  intros H. apply andb_true_iff in H. destruct H as [H1 H2].
  apply Z.eqb_eq in H1. apply Z.leb_le in H2. cbn [Zdigits2]. split; lia.
Qed.

Lemma mul_100_range (m : float) :
  valid m = true -> leb zero m = true -> leb m one = true ->
  leb zero (mul m (of_int 100)) = true /\
  leb (mul m (of_int 100)) (of_int 100) = true.
Proof.
  intros Hv H0 H1.
  destruct m as [s | s | | s mx ex].
  - destruct s; split; reflexivity.
  - destruct s; discriminate.
  - discriminate.
  - destruct s; [ discriminate | ].
    apply valid_finite in Hv. destruct Hv as [Hcan Hex].
    apply leb_key in H1. destruct H1 as (_ & _ & K). cbn in K.
    pose proof (Zdigits2_bounds mx) as [DL DU].
    set (D := Zdigits2 (Z.pos mx)) in *.
    assert (D53 : D <= 53) by lia.
    assert (U53 : Z.pos mx < 2 ^ 53).
    { apply Z.lt_le_trans with (1 := DU). apply Z.pow_le_mono_r; lia. }
    assert (C : ex = -52 \/ ex <= -53) by lia.
    destruct C as [-> | Hlow].
    + assert (D = 53) by lia.
      assert (2 ^ 52 <= Z.pos mx).
      { replace 52 with (D - 1) by lia. exact DL. }
      assert (E : mx = 4503599627370496%positive) by lia.
      subst mx. split; reflexivity.
    + rewrite of_int_100. unfold mul, SFmul. cbn [xorb].
      destruct (binary_round_aux_cases prec emax false
                  (Z.pos (mx * 7036874417766400)) (ex + -46) loc_Exact)
        as (m1 & mr & m2 & e1 & e2 & E1 & M1 & Hmr & E2 & M2 & R); [ lia | ].
      rewrite R. clear R.
      unfold fexp, emin, prec, emax in E1, M1, E2, M2.
      set (P := Z.pos (mx * 7036874417766400)) in *.
      assert (HP : P = Z.pos mx * 7036874417766400) by reflexivity.
      set (T := 2 ^ (- ex)).
      assert (T53 : 2 ^ 53 <= T) by (apply Z.pow_le_mono_r; lia).
      assert (PU : P < 7036874417766400 * T) by nia.
      (* the first shift *)
      set (n1 := Z.max 0 (Z.max (Zdigits2 P + (ex + -46) - 53) (3 - 1024 - 53)
                          - (ex + -46))) in *.
      assert (N1 : 0 <= n1) by lia.
      assert (dP : Zdigits2 P <= 53 - ex).
      { apply pow2_digits_le; [ lia | ].
        replace (53 - ex) with (53 + - ex) by lia.
        rewrite Z.pow_add_r by lia. fold T. nia. }
      assert (E1' : e1 <= -46) by lia.
      assert (N1' : n1 <= - ex) by lia.
      set (Kb := 7036874417766400 * 2 ^ (-46 - e1)).
      assert (KT : Kb * 2 ^ n1 = 7036874417766400 * T).
      { unfold Kb, T. rewrite <- Z.mul_assoc, <- Z.pow_add_r by lia.
        do 2 f_equal. lia. }
      assert (P1 : 0 < 2 ^ n1) by (apply Z.pow_pos_nonneg; lia).
      assert (M1U : m1 < Kb).
      { subst m1. apply Z.div_lt_upper_bound; [ assumption | ]. nia. }
      assert (M1L : 0 <= m1).
      { subst m1. apply Z.div_pos; lia. }
      assert (MRU : mr <= Kb) by lia.
      assert (MRL : 0 <= mr) by lia.
      (* the second shift *)
      set (n2 := Z.max 0 (Z.max (Zdigits2 mr + e1 - 53) (3 - 1024 - 53) - e1)) in *.
      assert (P2 : 0 < 2 ^ n2) by (apply Z.pow_pos_nonneg; lia).
      assert (M2L : 0 <= m2) by (subst m2; apply Z.div_pos; lia).
      destruct m2 as [ | q | q]; [ split; reflexivity | | lia ].
      assert (MRP : 0 < mr).
      { destruct (Z.eq_dec mr 0) as [Z0 | ]; [ | lia ].
        rewrite Z0 in M2. cbn in M2. discriminate. }
      destruct mr as [ | r | r]; try lia.
      assert (dR : Zdigits2 (Z.pos r) <= 7 - e1).
      { apply pow2_digits_le; [ lia | ].
        apply Z.le_lt_trans with (1 := MRU). unfold Kb.
        replace (7 - e1) with (53 + (-46 - e1)) by lia.
        rewrite Z.pow_add_r by lia.
        assert (0 < 2 ^ (-46 - e1)) by (apply Z.pow_pos_nonneg; lia).
        change (2 ^ 53) with 9007199254740992. nia. }
      assert (E2' : e2 <= -46) by lia.
      assert (L : (e2 <=? emax - prec)%Z = true)
        by (apply Z.leb_le; unfold emax, prec; lia).
      rewrite L. split; [ reflexivity | ].
      apply leb_key. repeat split. cbn.
      right. split; [ reflexivity | ].
      destruct (Z.eq_dec e2 (-46)) as [Q | Q]; [ right | left; lia ].
      split; [ assumption | ].
      assert (N2 : n2 = -46 - e1) by lia.
      assert (Z.pos q <= 7036874417766400); [ | lia ].
      rewrite M2. apply Z.div_le_upper_bound; [ assumption | ].
      rewrite N2. unfold Kb in MRU. lia.
Qed.

End F64Round.

(** ** Confidence *)

Section Confidence.

Import F64 F64Facts.

Lemma ltb_leb (x y : float) : ltb x y = true -> leb x y = true.
Proof.
  intros H. apply ltb_key in H. destruct H as (Hx & Hy & K).
  apply leb_key. repeat split; auto. revert K. unfold key_lt, key_le.
  destruct (key x) as [[a1 a2] a3], (key y) as [[b1 b2] b3]. lia.
Qed.

Lemma leb_refl (x : float) : is_nan x = false -> leb x x = true.
Proof.
  intros Hx. apply leb_key. repeat split; auto. unfold key_le.
  destruct (key x) as [[a1 a2] a3]. lia.
Qed.

(** The built-in [max] of a row of two probabilities is one of them and
    bounds both. *)
Lemma py_max_pair (p0 p1 : float) :
  is_nan p0 = false -> is_nan p1 = false ->
  exists best,
    py_max [p0; p1] = Some best /\
    best = (if gtb p1 p0 then p1 else p0) /\
    (best = p0 \/ best = p1) /\
    leb p0 best = true /\ leb p1 best = true.
Proof.
  intros H0 H1. cbn [py_max fold_left]. eexists. split; [ reflexivity | ].
  split; [ reflexivity | ]. unfold gtb.
  destruct (SFltb p0 p1) eqn:E; fold (ltb p0 p1) in E.
  - repeat split; auto using ltb_leb, leb_refl.
  - repeat split; auto using ltb_false_leb, leb_refl.
Qed.

End Confidence.

(** C2, as the code has it. For every pair of class probabilities (p0, p1)
    the classifier returns, both doubles in [0,1], the confidence shown is
    100 times max(p0, p1), a percentage in [0,100]; the maximum itself is
    one of the two and lies in [0,1]. *)
Theorem C2_confidence_percent pow artifact c w m p0 p1 :
  served artifact c = inr m ->
  predict_btn w = true ->
  predict_proba m (input_data pow w) = (p0, p1) ->
  F64.valid p0 = true -> F64.valid p1 = true ->
  F64.leb F64.zero p0 = true -> F64.leb p0 F64.one = true ->
  F64.leb F64.zero p1 = true -> F64.leb p1 F64.one = true ->
  exists r best,
    results (trace (snd (run pow artifact c w))) = [r] /\
    py_max [p0; p1] = Some best /\
    (best = p0 \/ best = p1) /\
    F64.leb p0 best = true /\ F64.leb p1 best = true /\
    F64.leb F64.zero best = true /\ F64.leb best F64.one = true /\
    confidence r = F64.mul best (F64.of_int 100) /\
    F64.leb F64.zero (confidence r) = true /\
    F64.leb (confidence r) (F64.of_int 100) = true.
Proof.
  intros Hs Hb Hp V0 V1 L0 U0 L1 U1.
  rewrite (run_pressed pow artifact c w m Hs Hb). cbn [snd trace].
  rewrite results_app, results_load_events. cbn [results app].
  rewrite Hp. cbn [fst snd].
  destruct (py_max_pair p0 p1) as (best & Hbest & Eb & Hor & B0 & B1);
    [ exact (F64Facts.leb_not_nan_r _ _ L0)
    | exact (F64Facts.leb_not_nan_r _ _ L1) | ].
  eexists. exists best. split; [ reflexivity | ]. cbn [confidence].
  rewrite <- Eb.
  assert (Vb : F64.valid best = true)
    by (destruct Hor as [E | E]; rewrite E; assumption).
  assert (Lb : F64.leb F64.zero best = true)
    by (destruct Hor as [E | E]; rewrite E; assumption).
  assert (Ub : F64.leb best F64.one = true)
    by (destruct Hor as [E | E]; rewrite E; assumption).
  destruct (F64Round.mul_100_range best Vb Lb Ub) as (R0 & R1).
  repeat split; assumption.
Qed.

(** C2 at (0.20, 0.80): the confidence is 80.0. *)
Lemma C2_witness :
  exists r best,
    results (trace (snd (run pow_exact (inr demo_model) None demo_widgets)))
      = [r] /\
    py_max [F64.lit_0_2; F64.lit_0_8] = Some best /\
    confidence r = F64.mul best (F64.of_int 100) /\
    F64.leb (confidence r) (F64.of_int 100) = true.
Proof.
  destruct (C2_confidence_percent pow_exact (inr demo_model) None demo_widgets
              demo_model F64.lit_0_2 F64.lit_0_8
              eq_refl eq_refl eq_refl eq_refl eq_refl
              eq_refl eq_refl eq_refl eq_refl)
    as (r & best & Hr & Hb & _ & _ & _ & _ & _ & Hc & _ & Hu).
  exists r, best. repeat split; assumption.
Defined.

(** C2 as stated fails: for (0.20, 0.80) the confidence shown is 80.0,
    which is neither 0.80 nor at most 1. *)
Lemma C2_counterexample :
  exists r,
    results (trace (snd (run pow_exact (inr demo_model) None demo_widgets)))
      = [r] /\
    predict_proba demo_model (input_data pow_exact demo_widgets)
      = (F64.lit_0_2, F64.lit_0_8) /\
    confidence r = F64.of_int 80 /\
    confidence r <> F64.lit_0_8 /\
    F64.leb (confidence r) F64.one = false.
Proof.
  eexists. split; [ vm_compute; reflexivity | ].
  repeat split; try (vm_compute; reflexivity).
  vm_compute. discriminate.
Qed.

Lemma run_cases pow artifact c w :
  (exists e, c = None /\ artifact = inl e /\
     run pow artifact c w =
       (Halt, {| cache := None;
                 trace := [ JoblibLoad "cardio_pipeline.pkl";
                            StError ("Error loading model: " ++ e) ] |})) \/
  (exists m, served artifact c = inr m /\
     cache (snd (run pow artifact c w)) = Some m /\
     fst (run pow artifact c w) = Ok tt /\
     exists t, trace (snd (run pow artifact c w)) = (load_events c ++ t)%list /\
               load_calls t = 0%nat /\ errors t = [disclaimer]).
Proof.
  destruct (served artifact c) as [e | m] eqn:Hs.
  - left. exists e. destruct c as [m' | ]; [ discriminate | ].
    cbn in Hs. subst artifact. repeat split.
  - right. exists m. split; [ reflexivity | ].
    destruct (predict_btn w) eqn:Hb.
    + rewrite (run_pressed pow artifact c w m Hs Hb). cbn [fst snd cache trace].
      repeat split. eexists. split; [ reflexivity | ]. split; reflexivity.
    + rewrite (run_idle pow artifact c w m Hs Hb). cbn [fst snd cache trace].
      repeat split. eexists. split; [ reflexivity | ]. split; reflexivity.
Qed.

Lemma errors_load_events c : errors (load_events c) = [].
Proof. destruct c; reflexivity. Qed.

(** X1. Without a press of the button a run with the widgets in their
    ranges and a classifier at hand ends normally, calls the classifier
    not at all and shows no result; the one [st.error] it reaches is the
    disclaimer's, there is no load error. The classifier was unpickled
    only if the cache slot was empty, and is cached afterwards. *)
Theorem X1_no_assessment_without_button pow artifact c w m :
  in_range w = true ->
  served artifact c = inr m ->
  predict_btn w = false ->
  fst (run pow artifact c w) = Ok tt /\
  results (trace (snd (run pow artifact c w))) = [] /\
  predict_calls (trace (snd (run pow artifact c w))) = [] /\
  predict_proba_calls (trace (snd (run pow artifact c w))) = [] /\
  errors (trace (snd (run pow artifact c w))) = [disclaimer] /\
  load_calls (trace (snd (run pow artifact c w))) =
    (match c with Some _ => 0 | None => 1 end)%nat /\
  cache (snd (run pow artifact c w)) = Some m.
Proof.
  intros _ Hs Hb. rewrite (run_idle pow artifact c w m Hs Hb).
  cbn [fst snd trace cache].
  rewrite results_app, errors_app, load_calls_app.
  unfold predict_calls, predict_proba_calls. rewrite !flat_map_app.
  fold (predict_calls (load_events c)).
  fold (predict_proba_calls (load_events c)).
  rewrite results_load_events, predict_calls_load_events,
    predict_proba_calls_load_events, errors_load_events.
  destruct c; repeat split.
Qed.

Lemma X1_witness :
  results (trace (snd (run pow_exact (inr demo_model) None idle_widgets))) = []
  /\
  errors (trace (snd (run pow_exact (inr demo_model) None idle_widgets))) =
    [disclaimer].
Proof.
  destruct (X1_no_assessment_without_button pow_exact (inr demo_model) None
              idle_widgets demo_model eq_refl eq_refl eq_refl)
    as (_ & H1 & _ & _ & H2 & _).
  exact (conj H1 H2).
Defined.

(** A run that finds the slot filled never looks at the artifact. *)
Lemma run_cached pow artifact artifact' m w :
  run pow artifact (Some m) w = run pow artifact' (Some m) w.
Proof. reflexivity. Qed.

(** X2. With the widgets in their ranges: the artifact is unpickled at
    most once per run and only into an empty slot. After a run that had
    a classifier the slot holds it, and the next run unpickles nothing,
    reports no load error (its one [st.error] is the disclaimer's) and
    behaves as with that classifier, whatever has become of the file.
    After a run whose load failed the slot is still empty, and the next
    run unpickles again. *)
Theorem X2_cache_across_reruns pow artifact artifact' c w w' :
  in_range w = true ->
  in_range w' = true ->
  (load_calls (trace (snd (run pow artifact c w))) <= 1)%nat /\
  (forall m, c = Some m ->
     load_calls (trace (snd (run pow artifact c w))) = 0%nat) /\
  (forall m, served artifact c = inr m ->
     cache (snd (run pow artifact c w)) = Some m /\
     rerun pow artifact' (run pow artifact c w) w' =
       run pow (inr m) (Some m) w' /\
     load_calls (trace (snd (rerun pow artifact' (run pow artifact c w) w')))
       = 0%nat /\
     errors (trace (snd (rerun pow artifact' (run pow artifact c w) w')))
       = [disclaimer]) /\
  (forall e, served artifact c = inl e ->
     cache (snd (run pow artifact c w)) = None /\
     rerun pow artifact' (run pow artifact c w) w' =
       run pow artifact' None w' /\
     load_calls (trace (snd (rerun pow artifact' (run pow artifact c w) w')))
       = 1%nat).
Proof.
  intros _ _.
  assert (L : forall a k v,
             load_calls (trace (snd (run pow a k v))) =
             (match k with Some _ => 0 | None => 1 end)%nat).
  { intros a k v.
    destruct (run_cases pow a k v)
      as [(e & -> & -> & R) | (m & Hs & _ & _ & t & Ht & Lt & _)].
    - rewrite R. reflexivity.
    - rewrite Ht, load_calls_app, Lt. destruct k; reflexivity. }
  assert (E : forall a m v,
             errors (trace (snd (run pow a (Some m) v))) = [disclaimer]).
  { intros a m v.
    destruct (run_cases pow a (Some m) v)
      as [(e & K & _) | (m' & Hs & _ & _ & t & Ht & _ & Et)];
      [ discriminate | ].
    rewrite Ht. cbn [load_events app]. exact Et. }
  split; [ rewrite L; destruct c; lia | ].
  split; [ intros m ->; apply L | ].
  split.
  - intros m Hs.
    destruct (run_cases pow artifact c w)
      as [(e & -> & -> & _) | (m' & Hs' & Hc & _)]; [ discriminate | ].
    rewrite Hs in Hs'. injection Hs' as <-.
    unfold rerun. rewrite Hc.
    repeat split; [ apply L | apply E ].
  - intros e Hs.
    destruct (run_cases pow artifact c w)
      as [(e' & -> & -> & R) | (m' & Hs' & _)]; [ | congruence ].
    unfold rerun. rewrite R. cbn [snd cache].
    repeat split. apply L.
Qed.

(** X2 from an empty slot: the second run, the file gone, unpickles
    nothing and works with the cached classifier. *)
Lemma X2_witness :
  cache (snd (run pow_exact (inr demo_model) None idle_widgets)) =
    Some demo_model /\
  load_calls
    (trace (snd (rerun pow_exact (inl "No such file")
                   (run pow_exact (inr demo_model) None idle_widgets)
                   demo_widgets))) = 0%nat /\
  errors
    (trace (snd (rerun pow_exact (inl "No such file")
                   (run pow_exact (inr demo_model) None idle_widgets)
                   demo_widgets))) = [disclaimer].
Proof.
  destruct (X2_cache_across_reruns pow_exact (inr demo_model)
              (inl "No such file") None idle_widgets demo_widgets
              eq_refl eq_refl)
    as (_ & _ & H & _).
  destruct (H demo_model eq_refl) as (H1 & _ & H2 & H3).
  exact (conj H1 (conj H2 H3)).
Defined.

(** ** The built-in max *)

Section PyMax.

Import F64 F64Facts.

(** The loop of [max]: the running best is an item seen so far and bounds
    every item seen so far. *)
Lemma py_max_loop (rest : list float) :
  forall (seen : list float) (best : float),
    (forall x, In x (seen ++ rest)%list -> is_nan x = false) ->
    In best seen ->
    (forall x, In x seen -> leb x best = true) ->
    let r := fold_left (fun best item => if gtb item best then item else best)
                       rest best in
    In r (seen ++ rest)%list /\
    (forall x, In x (seen ++ rest)%list -> leb x r = true).
Proof.
  induction rest as [ | y rest IH]; intros seen best Hn Hin Hub; cbn.
  - rewrite app_nil_r. auto.
  - assert (Ny : is_nan y = false) by (apply Hn, in_or_app; right; left; auto).
    assert (Nb : is_nan best = false)
      by (apply Hn, in_or_app; left; assumption).
    specialize (IH (seen ++ [y])%list
                   (if gtb y best then y else best)).
    rewrite <- !app_assoc in IH. cbn [app] in IH.
    apply IH; clear IH.
    + assumption.
    + apply in_or_app. destruct (gtb y best); [ right; left; auto | left; auto ].
    + intros x Hx. apply in_app_or in Hx. unfold gtb.
      destruct (SFltb best y) eqn:E; fold (ltb best y) in E.
      * destruct Hx as [Hx | [<- | []]].
        -- apply leb_trans with best; [ auto | now apply ltb_leb ].
        -- now apply leb_refl.
      * destruct Hx as [Hx | [<- | []]]; [ auto | ].
        now apply ltb_false_leb.
Qed.

End PyMax.

(** X3. [max] over a row of any length: it raises only on the empty row;
    on a row without NaN it returns an item of the row that bounds every
    item. A NaN in first place is what comes back, whatever follows. *)
Theorem X3_py_max_is_greatest (xs : list F64.float) :
  (forall x, In x xs -> F64.is_nan x = false) ->
  xs <> [] ->
  (exists best,
     py_max xs = Some best /\ In best xs /\
     forall x, In x xs -> F64.leb x best = true) /\
  (forall ys, py_max ys = None <-> ys = []) /\
  (forall ys, py_max (S754_nan :: ys) = Some S754_nan).
Proof.
  intros Hn Hne. split; [ | split ].
  - destruct xs as [ | x rest]; [ congruence | ].
    cbn [py_max]. eexists. split; [ reflexivity | ].
    apply (py_max_loop rest [x] x); cbn; auto.
    intros y [<- | []]. apply leb_refl. apply Hn. left. reflexivity.
  - intros [ | y ys]; cbn; split; intros H; congruence.
  - intros ys. cbn [py_max]. f_equal.
    induction ys as [ | y ys IH]; [ reflexivity | ].
    cbn [fold_left]. replace (F64.gtb y S754_nan) with false; [ exact IH | ].
    destruct y as [ | [ | ] | | ]; reflexivity.
Qed.

Lemma X3_witness :
  exists best,
    py_max [F64.lit_0_2; F64.lit_0_8; F64.lit_0_35] = Some best /\
    In best [F64.lit_0_2; F64.lit_0_8; F64.lit_0_35] /\
    forall x, In x [F64.lit_0_2; F64.lit_0_8; F64.lit_0_35] ->
              F64.leb x best = true.
Proof.
  apply (X3_py_max_is_greatest [F64.lit_0_2; F64.lit_0_8; F64.lit_0_35]).
  - intros x [<- | [<- | [<- | []]]]; reflexivity.
  - discriminate.
Defined.

(** ** Monotonicity *)

(** X4. A higher probability never gets a lower tier: if [p <= q], then
    [q] is "Low Risk" only if [p] is, and [p] is "High Risk" only if [q]
    is. *)
Theorem X4_risk_tier_monotone (p q : F64.float) :
  F64.leb p q = true ->
  (risk_tier q = low_risk -> risk_tier p = low_risk) /\
  (risk_tier p = high_risk -> risk_tier q = high_risk) /\
  (risk_tier p = moderate_risk -> risk_tier q <> low_risk) /\
  (risk_tier q = moderate_risk -> risk_tier p <> high_risk).
Proof.
  intros H.
  pose proof (F64Facts.leb_not_nan_l _ _ H) as Np.
  pose proof (F64Facts.leb_not_nan_r _ _ H) as Nq.
  destruct (risk_tier_cases p Np) as [(Ep & A) | [(Ep & A & B) | (Ep & A)]];
  destruct (risk_tier_cases q Nq) as [(Eq & C) | [(Eq & C & D) | (Eq & C)]];
    rewrite Ep, Eq; repeat split; intros K; try discriminate; try reflexivity;
    exfalso.
  all: try (pose proof (F64Facts.leb_trans _ _ _ A H) as T;
            apply F64Facts.leb_ltb_false in T; congruence).
  all: try (pose proof (F64Facts.leb_trans _ _ _ A H) as T;
            pose proof (F64Facts.leb_trans _ _ _ lit_0_35_le_lit_0_65 T) as T';
            apply F64Facts.leb_ltb_false in T'; congruence).
Qed.

Lemma X4_witness : risk_tier F64.lit_0_8 = high_risk.
Proof.
  exact (proj1 (proj2 (X4_risk_tier_monotone F64.lit_0_65 F64.lit_0_8
                         eq_refl)) eq_refl).
Defined.

(** X5. The bmi category is monotone: a larger bmi never falls into a
    lower bucket. *)
Theorem X5_bmi_cat_monotone (b b' : F64.float) :
  F64.leb b b' = true -> bmi_cat b <= bmi_cat b'.
Proof.
  intros H.
  pose proof (F64Facts.leb_not_nan_l _ _ H) as Nb.
  pose proof (F64Facts.leb_not_nan_r _ _ H) as Nb'.
  destruct bucket_bounds_ordered as (B1 & B2).
  destruct (bmi_cat_cases b)
    as [(E & A) | [(E & A & A') | [(E & A & A') | (E & [A | A])]]];
  destruct (bmi_cat_cases b')
    as [(E' & C) | [(E' & C & C') | [(E' & C & C') | (E' & [C | C])]]];
    rewrite E, E'; try lia; try congruence; exfalso.
  all: pose proof (F64Facts.leb_trans _ _ _ A H) as T.
  all: try (apply F64Facts.leb_ltb_false in T; congruence).
  all: try (pose proof (F64Facts.leb_trans _ _ _ B1 T) as T1;
            apply F64Facts.leb_ltb_false in T1; congruence).
  all: try (pose proof (F64Facts.leb_trans _ _ _ B2 T) as T2;
            try (apply F64Facts.leb_ltb_false in T2; congruence);
            pose proof (F64Facts.leb_trans _ _ _ B1 T2) as T3;
            apply F64Facts.leb_ltb_false in T3; congruence).
Qed.

Lemma X5_witness : bmi_cat F64.lit_18_5 <= bmi_cat (F64.of_int 30).
Proof. exact (X5_bmi_cat_monotone F64.lit_18_5 (F64.of_int 30) eq_refl). Defined.

(** ** The metrics row *)

(** X6. The "BMI Status" metric reads "Normal" exactly when the bmi
    category handed to the classifier is 1, and "Attention" otherwise,
    for every double (NaN included). *)
Theorem X6_bmi_status_agrees_with_bmi_cat (b : F64.float) :
  (bmi_status b = "Normal" <-> bmi_cat b = 1) /\
  (bmi_status b = "Attention" <-> bmi_cat b <> 1).
Proof.
  unfold bmi_status.
  destruct (bmi_cat_cases b)
    as [(E & A) | [(E & A & A') | [(E & A & A') | (E & [A | A])]]];
    rewrite E.
  - destruct (F64.leb F64.lit_18_5 b) eqn:L;
      [ apply F64Facts.leb_ltb_false in L; congruence | ].
    cbn. repeat split; intros; try discriminate; lia.
  - rewrite A, A'. cbn. repeat split; intros; congruence.
  - apply F64Facts.leb_ltb_false in A. rewrite A, andb_false_r.
    repeat split; intros; try discriminate; lia.
  - destruct bucket_bounds_ordered as (_ & B2).
    pose proof (F64Facts.leb_trans _ _ _ B2 A) as T.
    apply F64Facts.leb_ltb_false in T. rewrite T, andb_false_r.
    repeat split; intros; try discriminate; lia.
  - destruct b; try discriminate. cbn.
    repeat split; intros; try discriminate; lia.
Qed.

(** What [in_range] says, field by field. *)
Lemma in_range_spec (w : widgets) :
  in_range w = true ->
  18 <= age_years w <= 100 /\ 120 <= height w <= 220 /\
  30 <= weight w <= 200 /\ 80 <= ap_hi w <= 220 /\ 40 <= ap_lo w <= 160 /\
  1 <= gender w <= 2 /\ 1 <= cholesterol w <= 3 /\ 1 <= gluc w <= 3 /\
  0 <= smoke w <= 1 /\ 0 <= alco w <= 1 /\ 0 <= active w <= 1.
Proof.
  unfold in_range, gender_options, level_options, yes_no_options.
  cbn [existsb]. rewrite !orb_false_r, !andb_true_iff, !orb_true_iff.
  rewrite !Z.leb_le, !Z.eqb_eq. lia.
Qed.

(** X7. With the widgets in their ranges the pulse pressure lies between
    -80 and 180. Its metric reads "Wide" exactly when the systolic value
    exceeds the diastolic by more than 60; a reading with the diastolic at
    or above the systolic is labelled "Normal". The "BP Status" reads
    "Elevated" exactly when the systolic value is above 120, so a wide
    pulse pressure with a diastolic of 60 or more is always "Elevated". *)
Theorem X7_pressure_statuses (w : widgets) :
  in_range w = true ->
  -80 <= bp_diff w <= 180 /\
  (pulse_status w = "Wide" <-> ap_lo w + 60 < ap_hi w) /\
  (pulse_status w = "Normal" <-> ap_hi w <= ap_lo w + 60) /\
  (ap_hi w <= ap_lo w -> pulse_status w = "Normal") /\
  (bp_status w = "Elevated" <-> 120 < ap_hi w) /\
  (bp_status w = "Normal" <-> ap_hi w <= 120) /\
  (pulse_status w = "Wide" -> 60 <= ap_lo w -> bp_status w = "Elevated").
Proof.
  intros H. apply in_range_spec in H.
  unfold pulse_status, bp_status, bp_diff.
  destruct (Z.ltb_spec 60 (ap_hi w - ap_lo w));
    destruct (Z.ltb_spec 120 (ap_hi w));
    repeat split; intros; try discriminate; try reflexivity; lia.
Qed.

Lemma X7_witness :
  pulse_status demo_widgets = "Normal" /\ bp_status demo_widgets = "Normal".
Proof.
  destruct (X7_pressure_statuses demo_widgets eq_refl)
    as (_ & _ & P & _ & _ & B & _).
  split; [ apply P | apply B ]; cbn; lia.
Defined.

(** ** Labels of the select boxes *)

Lemma py_getitem_some {A : Type} (xs : list A) (i : Z) :
  py_getitem xs i <> None <->
  - Z.of_nat (List.length xs) <= i < Z.of_nat (List.length xs).
Proof.
  unfold py_getitem.
  destruct (Z.leb_spec 0 i); destruct (Z.ltb_spec i (Z.of_nat (List.length xs)));
    destruct (Z.leb_spec (- Z.of_nat (List.length xs)) i);
    destruct (Z.ltb_spec i 0); cbn [andb];
    try rewrite nth_error_Some; try lia;
    (split; [ congruence | lia ]).
Qed.

(** X8. Every option of a select box has a label, and two options of one
    box never share a label. The lookup behind the cholesterol and glucose
    labels succeeds exactly for x from -2 to 3 (a negative index counts
    from the end, so 0 would read "High") and raises outside. *)
Theorem X8_select_box_labels :
  (forall x, In x level_options -> exists s, level_label x = Some s) /\
  (forall x y, In x level_options -> In y level_options ->
     level_label x = level_label y -> x = y) /\
  (forall x, level_label x = None <-> x < -2 \/ 3 < x) /\
  level_label 0 = Some "High" /\
  map level_label level_options =
    [Some "Normal"; Some "Above Normal"; Some "High"] /\
  (forall x y, In x gender_options -> In y gender_options ->
     gender_label x = gender_label y -> x = y) /\
  (forall x y, In x yes_no_options -> In y yes_no_options ->
     yes_no_label x = yes_no_label y -> x = y) /\
  (forall x, gender_label x = "Female" <-> x = 1) /\
  (forall x, yes_no_label x = "No" <-> x = 0).
Proof.
  repeat split.
  - intros x [<- | [<- | [<- | []]]]; eexists; reflexivity.
  - intros x y [<- | [<- | [<- | []]]] [<- | [<- | [<- | []]]];
      vm_compute; intros K; first [ reflexivity | discriminate K ].
  - intros H. destruct (Z_lt_dec x (-2)); [ auto | ].
    destruct (Z_lt_dec 3 x); [ auto | exfalso ].
    revert H. apply py_getitem_some. cbn. lia.
  - intros H. destruct (level_label x) eqn:E; [ exfalso | reflexivity ].
    assert (K : level_label x <> None) by congruence.
    apply py_getitem_some in K. cbn in K. lia.
  - intros x y [<- | [<- | []]] [<- | [<- | []]];
      vm_compute; intros K; first [ reflexivity | discriminate K ].
  - intros x y [<- | [<- | []]] [<- | [<- | []]];
      vm_compute; intros K; first [ reflexivity | discriminate K ].
  - unfold gender_label. destruct (Z.eqb_spec x 1); [ auto | discriminate ].
  - intros ->. reflexivity.
  - unfold yes_no_label. destruct (Z.eqb_spec x 0); [ auto | discriminate ].
  - intros ->. reflexivity.
Qed.

(** ** The bmi of in-range widgets *)

Lemma bmi_exact_bounds (h w : Z) :
  120 <= h <= 220 -> 30 <= w <= 200 ->
  (61 # 10 < bmi_exact h w)%Q /\ (bmi_exact h w < 1389 # 10)%Q.
Proof.
  intros Hh Hw. unfold bmi_exact.
  assert (E : (inject_Z w / (inject_Z h / 100 * (inject_Z h / 100)) ==
               inject_Z (10000 * w) / inject_Z (h * h))%Q).
  { rewrite !inject_Z_mult. field.
    change 0%Q with (inject_Z 0). rewrite inject_Z_injective. lia. }
  rewrite E.
  assert (P : (0 < inject_Z (h * h))%Q).
  { change 0%Q with (inject_Z 0). rewrite <- Zlt_Qlt. nia. }
  split.
  - apply Qlt_shift_div_l; [ assumption | ].
    unfold Qlt, Qmult, inject_Z. cbn [Qnum Qden]. nia.
  - apply Qlt_shift_div_r; [ assumption | ].
    unfold Qlt, Qmult, inject_Z. cbn [Qnum Qden]. nia.
Qed.

(** A double that denotes a positive rational is finite and positive. *)
Lemma to_Q_positive (x : F64.float) (v : Q) :
  F64.to_Q x = Some v -> (0 < v)%Q ->
  exists m e, x = S754_finite false m e.
Proof.
  destruct x as [s | s | | s m e]; cbn; intros H Hv; try discriminate.
  - injection H as <-. exfalso. revert Hv. apply Qlt_irrefl.
  - destruct s; [ exfalso | eauto ].
    injection H as <-. revert Hv.
    destruct e as [ | p | p]; unfold Qlt, inject_Z; cbn [Qnum Qden]; try lia.
    assert (0 < 2 ^ Z.pos p) by (apply Z.pow_pos_nonneg; lia).
    change (Z.pow_pos 2 p) with (2 ^ Z.pos p).
    destruct (2 ^ Z.pos p); lia.
Qed.

(** What the check of [bmi_check] gives for one height, weight and C
    library. *)
Lemma bmi_within pow (w : widgets) :
  pow_faithful pow ->
  120 <= height w <= 220 ->
  30 <= weight w <= 200 ->
  exists v : Q,
    F64.to_Q (bmi pow w) = Some v /\
    (Qabs (v - bmi_exact (height w) (weight w)) <= tolerance)%Q.
Proof.
  intros Hpow Hh Hw.
  pose proof bmi_check_all_true as A.
  rewrite forallb_forall in A.
  assert (Ih : In (height w) (Zrange 120 101)) by (apply Zrange_In; lia).
  assert (Iw : In (weight w) (Zrange 30 171)) by (apply Zrange_In; lia).
  specialize (A (height w) Ih).
  unfold bmi_check in A. rewrite forallb_forall in A.
  specialize (A _ (Hpow (int_truediv (height w) 100))).
  rewrite forallb_forall in A.
  specialize (A (weight w) Iw).
  unfold within in A. fold (bmi pow w) in A.
  destruct (F64.to_Q (bmi pow w)) as [v | ]; [ | discriminate ].
  exists v. split; [ reflexivity | ]. now apply Qle_bool_iff.
Qed.

Lemma bmi_in_range_finite pow (w : widgets) :
  pow_faithful pow ->
  120 <= height w <= 220 ->
  30 <= weight w <= 200 ->
  exists (v : Q) (m : positive) (e : Z),
    bmi pow w = S754_finite false m e /\
    F64.to_Q (bmi pow w) = Some v /\
    (6 < v)%Q /\ (v < 139)%Q /\
    (Qabs (v - bmi_exact (height w) (weight w)) <= tolerance)%Q.
Proof.
  intros Hpow Hh Hw.
  destruct (bmi_within pow w Hpow Hh Hw) as (v & Hv & Hd).
  pose proof Hd as Hd'.
  destruct (bmi_exact_bounds (height w) (weight w) Hh Hw) as (L & U).
  apply Qabs_Qle_condition in Hd. destruct Hd as (D1 & D2).
  unfold tolerance in D1, D2.
  assert (V6 : (6 < v)%Q) by lra.
  assert (V139 : (v < 139)%Q) by lra.
  assert (P : (0 < v)%Q) by lra.
  destruct (to_Q_positive _ _ Hv P) as (m & e & E).
  exists v, m, e. auto 6.
Qed.

(** A finite quotient has finite operands. *)
Lemma div_finite_inv (x y : F64.float) s m e :
  F64.div x y = S754_finite s m e ->
  is_finite x = true /\ is_zero x = false /\ is_infinity x = false /\
  is_finite y = true /\ is_zero y = false /\ is_infinity y = false.
Proof.
  unfold F64.div, SFdiv.
  destruct x as [sx | sx | | sx mx ex], y as [sy | sy | | sy my ey];
    try discriminate; intros _; repeat split.
Qed.

(** X9. With the widgets in their ranges and a C library whose [pow] errs
    by less than one unit in the last place, computing the bmi raises
    nothing: the divisor is a finite nonzero double, and the bmi is a
    finite positive double between 6 and 139. With a height of 0 and a
    correctly rounded square the division raises ZeroDivisionError. *)
Theorem X9_bmi_never_raises pow (w : widgets) :
  pow_faithful pow ->
  in_range w = true ->
  bmi_raising pow w = inr (bmi pow w) /\
  (exists (v : Q) (m : positive) (e : Z),
     bmi pow w = S754_finite false m e /\
     F64.to_Q (bmi pow w) = Some v /\ (6 < v)%Q /\ (v < 139)%Q) /\
  (forall w0 : widgets,
     height w0 = 0 -> is_infinity (F64.of_int (weight w0)) = false ->
     bmi_raising pow_exact w0 = inl "ZeroDivisionError").
Proof.
  intros Hpow Hr. apply in_range_spec in Hr.
  destruct Hr as (_ & Hh & Hw & _).
  destruct (bmi_in_range_finite pow w Hpow Hh Hw)
    as (v & m & e & E & Hv & L & U & _).
  split; [ | split ].
  - unfold bmi_raising, py_int_truediv, py_pow_2, py_int_div_float.
    cbn [Z.eqb]. fold (bmi pow w).
    unfold bmi, int_div_float in E. apply div_finite_inv in E.
    destruct E as (_ & _ & E1 & _ & E2 & E3).
    rewrite E3, andb_false_r, E1, E2. reflexivity.
  - exists v, m, e. auto.
  - intros w0 H0 Hi.
    unfold bmi_raising, py_int_truediv, py_pow_2, py_int_div_float.
    rewrite H0, Hi. reflexivity.
Qed.

Lemma X9_witness :
  bmi_raising pow_exact demo_widgets = inr (bmi pow_exact demo_widgets).
Proof.
  exact (proj1 (X9_bmi_never_raises pow_exact demo_widgets
                  pow_exact_faithful eq_refl)).
Defined.

(** ** The polar chart *)

Section Radar.

Import F64 F64Facts.

(** Rounding keeps the sign and never gives NaN. *)
Lemma binary_round_aux_nonneg (mx ex : Z) (lx : location) :
  0 <= mx ->
  leb zero (binary_round_aux prec emax false mx ex lx) = true.
Proof.
  intros Hm.
  destruct (F64Round.binary_round_aux_cases prec emax false mx ex lx Hm)
    as (m1 & mr & m2 & e1 & e2 & _ & M1 & Hmr & _ & M2 & R).
  rewrite R. clear R.
  assert (H1 : 0 <= m1).
  { subst m1. apply Z.div_pos; [ assumption | apply Z.pow_pos_nonneg; lia ]. }
  assert (Hr : 0 <= mr) by lia.
  assert (H2 : 0 <= m2).
  { subst m2. apply Z.div_pos; [ assumption | apply Z.pow_pos_nonneg; lia ]. }
  destruct m2 as [ | q | q]; [ reflexivity | | lia ].
  destruct (e2 <=? emax - prec)%Z; reflexivity.
Qed.

(** The quotient of two positive doubles is not negative and not NaN. *)
Lemma div_pos_pos (mx my : positive) (ex ey : Z) :
  leb zero (div (S754_finite false mx ex) (S754_finite false my ey)) = true.
Proof.
  unfold div, SFdiv.
  destruct (SFdiv_core_binary prec emax (Z.pos mx) ex (Z.pos my) ey)
    as [[mz ez] lz] eqn:C.
  cbn [xorb]. apply binary_round_aux_nonneg.
  unfold SFdiv_core_binary in C.
  set (s := ex - ey -
            Z.min (fexp prec emax (Zdigits2 (Z.pos mx) + ex -
                                   (Zdigits2 (Z.pos my) + ey))) (ex - ey)) in C.
  set (m' := match s with
             | 0 => Z.pos mx
             | Z.pos _ => Z.shiftl (Z.pos mx) s
             | Z.neg _ => 0
             end) in C.
  assert (Hm' : 0 <= m').
  { unfold m'. destruct s; try lia. apply Z.shiftl_nonneg. lia. }
  pose proof (Z_div_mod m' (Z.pos my) eq_refl) as D.
  destruct (Z.div_eucl m' (Z.pos my)) as [q r].
  injection C as <- _ _. nia.
Qed.

End Radar.

(** Over the range of the age widget: the radius is on the axis, and the
    quotient exceeds 1 exactly above 80. *)
Lemma age_radius_check :
  forallb
    (fun a =>
       on_axis (py_min2 (PyFloat (int_truediv a 80)) (PyInt 1)) &&
       Bool.eqb (F64.ltb (F64.of_int 1) (int_truediv a 80)) (80 <? a)%Z)
    (Zrange 18 83) = true.
Proof. vm_compute. reflexivity. Qed.

(** Over the range of the systolic widget, with 180 for 80. *)
Lemma ap_hi_radius_check :
  forallb
    (fun a =>
       on_axis (py_min2 (PyFloat (int_truediv a 180)) (PyInt 1)) &&
       Bool.eqb (F64.ltb (F64.of_int 1) (int_truediv a 180)) (180 <? a)%Z)
    (Zrange 80 141) = true.
Proof. vm_compute. reflexivity. Qed.

Lemma level_radius_check :
  forallb (fun a => on_axis (PyFloat (int_truediv a 3))) level_options = true.
Proof. vm_compute. reflexivity. Qed.

(** [min(x, 1)] of a double that is not negative is on the axis. *)
Lemma py_min2_on_axis (x : F64.float) :
  F64.leb F64.zero x = true ->
  on_axis (py_min2 (PyFloat x) (PyInt 1)) = true.
Proof.
  intros H. unfold py_min2, py_lt.
  destruct (F64.ltb (F64.of_int 1) x) eqn:E; [ reflexivity | ].
  cbn [on_axis]. rewrite H. cbn [andb].
  apply F64Facts.ltb_false_leb; [ reflexivity | | exact E ].
  exact (F64Facts.leb_not_nan_r _ _ H).
Qed.

(** X10. With the widgets in their ranges every radius of the polar chart
    lies on its axis, between 0 and 1, and there is one radius per
    category. The age radius is age/80 up to 80 and the int 1 above; the
    blood-pressure radius is ap_hi/180 up to 180 and the int 1 above. *)
Theorem X10_radar_values_on_axis pow (w : widgets) :
  pow_faithful pow ->
  in_range w = true ->
  Forall (fun v => on_axis v = true) (values pow w) /\
  List.length (values pow w) = List.length categories /\
  nth_error (values pow w) 0 =
    Some (if (80 <? age_years w)%Z then PyInt 1
          else PyFloat (int_truediv (age_years w) 80)) /\
  nth_error (values pow w) 2 =
    Some (if (180 <? ap_hi w)%Z then PyInt 1
          else PyFloat (int_truediv (ap_hi w) 180)).
Proof.
  intros Hpow Hr. apply in_range_spec in Hr.
  destruct Hr as (Ha & Hh & Hw & Hp & _ & _ & Hc & Hg & _).
  pose proof age_radius_check as A. rewrite forallb_forall in A.
  assert (Ia : In (age_years w) (Zrange 18 83)) by (apply Zrange_In; lia).
  specialize (A (age_years w) Ia).
  apply andb_true_iff in A. destruct A as (A1 & A2).
  apply Bool.eqb_prop in A2.
  pose proof ap_hi_radius_check as B. rewrite forallb_forall in B.
  assert (Ip : In (ap_hi w) (Zrange 80 141)) by (apply Zrange_In; lia).
  specialize (B (ap_hi w) Ip).
  apply andb_true_iff in B. destruct B as (B1 & B2).
  apply Bool.eqb_prop in B2.
  pose proof level_radius_check as C. rewrite forallb_forall in C.
  assert (Ic : In (cholesterol w) level_options) by (cbn; lia).
  assert (Ig : In (gluc w) level_options) by (cbn; lia).
  split; [ | split; [ reflexivity | split ] ].
  - unfold values. repeat apply Forall_cons; auto.
    apply py_min2_on_axis.
    destruct (bmi_in_range_finite pow w Hpow Hh Hw) as (v & m & e & E & _).
    rewrite E. apply div_pos_pos.
  - cbn [values nth_error]. unfold py_min2, py_lt. rewrite A2. reflexivity.
  - cbn [values nth_error]. unfold py_min2, py_lt. rewrite B2. reflexivity.
Qed.

Lemma X10_witness :
  Forall (fun v => on_axis v = true) (values pow_exact demo_widgets).
Proof.
  exact (proj1 (X10_radar_values_on_axis pow_exact demo_widgets
                  pow_exact_faithful eq_refl)).
Defined.

(** ** Formatting *)

Section Formatting.

Import F64 F64Facts.

Lemma round_half_even_bounds (num den lo hi : Z) :
  0 < den -> lo * den <= num <= hi * den ->
  lo <= round_half_even num den <= hi.
Proof.
  intros Hd [Hl Hu]. unfold round_half_even.
  pose proof (Z.div_mod num den ltac:(lia)) as E.
  pose proof (Z.mod_pos_bound num den Hd) as R.
  set (q := num / den) in *. set (r := num mod den) in *.
  assert (Lq : lo <= q) by nia.
  assert (Uq : q <= hi) by nia.
  destruct (Z.compare_spec (2 * r) den); [ destruct (Z.even q) | | ]; nia.
Qed.

(** The rounded integer is within one half of the quotient. *)
Lemma round_half_even_near (num den : Z) :
  0 < den ->
  2 * Z.abs (round_half_even num den * den - num) <= den.
Proof.
  intros Hd. unfold round_half_even.
  pose proof (Z.div_mod num den ltac:(lia)) as E.
  pose proof (Z.mod_pos_bound num den Hd) as R.
  set (q := num / den) in *. set (r := num mod den) in *.
  destruct (Z.compare_spec (2 * r) den); [ destruct (Z.even q) | | ]; nia.
Qed.

(** The mantissa [binary_round_aux] returns has at most 53 bits. *)
Lemma binary_round_aux_mantissa (sx : bool) (mx ex : Z) (lx : location) :
  0 <= mx ->
  forall s m e,
    binary_round_aux prec emax sx mx ex lx = S754_finite s m e ->
    Z.pos m < 2 ^ 53.
Proof.
  intros Hm s m e.
  destruct (F64Round.binary_round_aux_cases prec emax sx mx ex lx Hm)
    as (m1 & mr & m2 & e1 & e2 & _ & M1 & Hmr & _ & M2 & R).
  rewrite R. clear R.
  assert (H1 : 0 <= m1).
  { subst m1. apply Z.div_pos; [ assumption | apply Z.pow_pos_nonneg; lia ]. }
  destruct mr as [ | r | r]; [ | | lia ].
  { rewrite Z.div_0_l in M2.
    - subst m2. discriminate.
    - apply Z.pow_nonzero; lia. }
  pose proof (F64Round.Zdigits2_bounds r) as [_ DU].
  set (d := Zdigits2 (Z.pos r)) in *.
  unfold fexp, emin, prec, emax in M2.
  set (n2 := Z.max 0 (Z.max (d + e1 - 53) (3 - 1024 - 53) - e1)) in *.
  assert (N : 0 <= n2 /\ d - 53 <= n2) by lia.
  assert (P2 : 0 < 2 ^ n2) by (apply Z.pow_pos_nonneg; lia).
  assert (D0 : 0 < d) by (unfold d; cbn; lia).
  assert (B : m2 < 2 ^ 53).
  { subst m2. apply Z.div_lt_upper_bound; [ assumption | ].
    apply Z.lt_le_trans with (1 := DU).
    rewrite <- Z.pow_add_r by lia. apply Z.pow_le_mono_r; lia. }
  destruct m2 as [ | q | q]; try discriminate.
  destruct (e2 <=? emax - prec)%Z; [ | discriminate ].
  intros K. injection K as _ <- _. exact B.
Qed.

(** Rounding keeps the sign. *)
Lemma binary_round_aux_sign (sx : bool) (mx ex : Z) (lx : location) :
  0 <= mx ->
  signbit (binary_round_aux prec emax sx mx ex lx) = sx.
Proof.
  intros Hm.
  destruct (F64Round.binary_round_aux_cases prec emax sx mx ex lx Hm)
    as (m1 & mr & m2 & e1 & e2 & _ & M1 & Hmr & _ & M2 & R).
  rewrite R. clear R.
  assert (H1 : 0 <= m1).
  { subst m1. apply Z.div_pos; [ assumption | apply Z.pow_pos_nonneg; lia ]. }
  assert (Hr : 0 <= mr) by lia.
  assert (H2 : 0 <= m2).
  { subst m2. apply Z.div_pos; [ assumption | apply Z.pow_pos_nonneg; lia ]. }
  destruct m2 as [ | q | q]; [ reflexivity | | lia ].
  destruct (e2 <=? emax - prec)%Z; reflexivity.
Qed.

Lemma mul_mantissa (x y : float) s m e :
  mul x y = S754_finite s m e -> Z.pos m < 2 ^ 53.
Proof.
  unfold mul, SFmul.
  destruct x as [sx | sx | | sx mx ex], y as [sy | sy | | sy my ey];
    try discriminate.
  apply binary_round_aux_mantissa. lia.
Qed.

End Formatting.

Lemma append_assoc (a b c : string) : ((a ++ b) ++ c = a ++ (b ++ c))%string.
Proof. induction a as [ | x a IH]; cbn; [ reflexivity | now rewrite IH ]. Qed.

Lemma append_nil_r (a : string) : (a ++ "")%string = a.
Proof. induction a as [ | x a IH]; cbn; [ reflexivity | now rewrite IH ]. Qed.

Lemma round_half_even_ge (num den lo : Z) :
  0 < den -> (2 * lo - 1) * den < 2 * num -> lo <= round_half_even num den.
Proof.
  intros Hd H. unfold round_half_even.
  pose proof (Z.div_mod num den ltac:(lia)) as E.
  pose proof (Z.mod_pos_bound num den Hd) as R.
  set (q := num / den) in *. set (r := num mod den) in *.
  assert (Lq : lo - 1 <= q) by nia.
  destruct (Z.compare_spec (2 * r) den); [ destruct (Z.even q) | | ]; nia.
Qed.

(** A double between 0 and 100 prints as a decimal between 0 and 100,
    the digits being those of the rounded integer; the only one printed
    with a minus sign is the negative zero. *)
Lemma format_f_percent (d : nat) (c : F64.float) :
  F64.leb F64.zero c = true ->
  F64.leb c (F64.of_int 100) = true ->
  (forall s m e, c = S754_finite s m e -> Z.pos m < 2 ^ 53) ->
  exists n : Z,
    0 <= n <= 100 * 10 ^ Z.of_nat d /\
    format_f d c = sign_text (signbit c) ++ fixed d n /\
    (signbit c = true -> c = S754_zero true) /\
    (forall s, c = S754_zero s -> n = 0) /\
    (forall s mc ec, c = S754_finite s mc ec ->
       ec <= -46 /\
       n = round_half_even (Z.pos mc * 10 ^ Z.of_nat d) (2 ^ (- ec))).
Proof.
  intros H0 H1 Hm.
  assert (P : 0 < 10 ^ Z.of_nat d) by (apply Z.pow_pos_nonneg; lia).
  destruct c as [s | s | | s m e].
  - exists 0. split; [ lia | split ]; [ reflexivity | ].
    split; [ cbn [signbit]; intros ->; reflexivity | ].
    split; [ reflexivity | discriminate ].
  - destruct s; discriminate.
  - discriminate.
  - destruct s; [ discriminate | ].
    specialize (Hm false m e eq_refl).
    apply F64Facts.leb_key in H1. destruct H1 as (_ & _ & K).
    rewrite F64Round.of_int_100 in K. cbn in K.
    assert (E : e <= -46) by lia.
    set (T := 2 ^ (- e)).
    assert (T47 : e < -46 -> 2 ^ 47 <= T)
      by (intros; apply Z.pow_le_mono_r; lia).
    assert (T46 : e = -46 -> T = 2 ^ 46) by (intros ->; reflexivity).
    assert (TP : 0 < T) by (apply Z.pow_pos_nonneg; lia).
    assert (M : Z.pos m <= 100 * T).
    { destruct (Z.eq_dec e (-46)) as [Q | Q].
      - rewrite (T46 Q). change (2 ^ 46) with 70368744177664. lia.
      - assert (2 ^ 47 <= T) by (apply T47; lia).
        change (2 ^ 53) with 9007199254740992 in Hm.
        change (2 ^ 47) with 140737488355328 in *. lia. }
    cbn [format_f signbit].
    rewrite (Z.max_r e 0), (Z.max_l (- e) 0) by lia.
    change (2 ^ 0) with 1. rewrite Z.mul_1_r. fold T.
    exists (round_half_even (Z.pos m * 10 ^ Z.of_nat d) T).
    split; [ apply round_half_even_bounds; [ assumption | nia ] | ].
    split; [ reflexivity | ]. split; [ discriminate | ].
    split; [ discriminate | ].
    intros s mc ec K'. injection K' as _ <- <-. split; [ lia | reflexivity ].
Qed.

(** ** Rounding, with bounds *)

Section Rounding.

Import F64 F64Facts.

(** [binary_round_aux] in full: the mantissa is shifted to the exponent of
    the format, rounded by at most one unit, and shifted once more, with
    nothing lost, when the rounding carried into a 54th bit. *)
Lemma binary_round_aux_exact (sx : bool) (mx ex : Z) (lx : location) :
  0 <= mx ->
  exists m1 mr m2 e1 e2 : Z,
    e1 = Z.max ex (Z.max (Zdigits2 mx + ex - 53) (-1074)) /\
    m1 = mx / 2 ^ (e1 - ex) /\
    (mr = m1 \/ mr = m1 + 1) /\
    m1 < 2 ^ 53 /\
    ((e2 = e1 /\ m2 = mr) \/
     (e2 = e1 + 1 /\ mr = 2 ^ 53 /\ m2 = 2 ^ 52)) /\
    binary_round_aux prec emax sx mx ex lx =
      match m2 with
      | Z0 => S754_zero sx
      | Z.pos m => if (e2 <=? 971)%Z then S754_finite sx m e2
                   else S754_infinity sx
      | Z.neg _ => S754_nan
      end.
Proof.
  intros Hm.
  destruct (F64Round.binary_round_aux_cases prec emax sx mx ex lx Hm)
    as (m1 & mr & m2 & e1 & e2 & E1 & M1 & Hmr & E2 & M2 & R).
  unfold fexp, emin, prec, emax in E1, M1, E2, M2.
  change (3 - 1024 - 53) with (-1074) in *.
  change (1024 - 53) with 971 in R.
  set (d := Zdigits2 mx) in *.
  set (n1 := Z.max 0 (Z.max (d + ex - 53) (-1074) - ex)) in *.
  assert (N1 : 0 <= n1 /\ d - 53 <= n1) by lia.
  assert (P1 : 0 < 2 ^ n1) by (apply Z.pow_pos_nonneg; lia).
  assert (D : mx < 2 ^ d /\ 0 <= d).
  { destruct mx as [ | q | q]; [ cbn; lia | | lia ].
    pose proof (F64Round.Zdigits2_bounds q) as [_ DU]. fold d in DU.
    split; [ exact DU | unfold d; cbn; lia ]. }
  assert (H1 : 0 <= m1).
  { subst m1. apply Z.div_pos; lia. }
  assert (U1 : m1 < 2 ^ 53).
  { subst m1. apply Z.div_lt_upper_bound; [ assumption | ].
    apply Z.lt_le_trans with (2 ^ d); [ tauto | ].
    rewrite <- Z.pow_add_r by lia. apply Z.pow_le_mono_r; lia. }
  exists m1, mr, m2, e1, e2.
  split; [ lia | ]. split; [ rewrite M1; f_equal; f_equal; lia | ].
  split; [ assumption | ]. split; [ assumption | ].
  split; [ | exact R ].
  assert (Hr : 0 <= mr <= 2 ^ 53) by lia.
  destruct (Z.eq_dec mr (2 ^ 53)) as [Q | Q].
  - right. rewrite Q in E2, M2.
    change (Zdigits2 (2 ^ 53)) with 54 in E2, M2.
    assert (N2 : Z.max 0 (Z.max (54 + e1 - 53) (-1074) - e1) = 1) by lia.
    rewrite N2 in E2, M2. split; [ lia | ]. split; [ assumption | ].
    rewrite M2. reflexivity.
  - left.
    assert (L : Zdigits2 mr <= 53).
    { destruct mr as [ | q | q]; [ cbn; lia | | lia ].
      apply F64Round.pow2_digits_le; lia. }
    assert (N2 : Z.max 0 (Z.max (Zdigits2 mr + e1 - 53) (-1074) - e1) = 0)
      by lia.
    rewrite N2 in E2, M2. split; [ lia | ].
    rewrite M2. change (2 ^ 0) with 1. apply Z.div_1_r.
Qed.

(** A representable bound above the exact value stays above the rounded
    one. *)
Lemma round_below_bound (mx ex KB EB : Z) (lx : location) :
  0 <= mx -> ex <= EB -> -1074 <= EB <= 971 -> 0 < KB < 2 ^ 53 ->
  mx < KB * 2 ^ (EB - ex) ->
  (exists s, binary_round_aux prec emax false mx ex lx = S754_zero s) \/
  (exists mc ec,
     binary_round_aux prec emax false mx ex lx = S754_finite false mc ec /\
     ec <= EB /\ Z.pos mc <= KB * 2 ^ (EB - ec)).
Proof.
  intros Hm Hex HEB HKB Hlt.
  destruct (binary_round_aux_exact false mx ex lx Hm)
    as (m1 & mr & m2 & e1 & e2 & E1 & M1 & Hmr & U1 & S2 & R).
  rewrite R. clear R.
  set (d := Zdigits2 mx) in *.
  assert (D : d + ex - 53 <= EB).
  { destruct mx as [ | q | q]; [ cbn in d; lia | | lia ].
    pose proof (F64Round.Zdigits2_bounds q) as [DL _]. fold d in DL.
    assert (D0 : 0 < d) by (unfold d; cbn; lia).
    assert (T : 2 ^ (d - 1) < 2 ^ (53 + (EB - ex))).
    { apply Z.le_lt_trans with (1 := DL).
      apply Z.lt_le_trans with (1 := Hlt).
      rewrite Z.pow_add_r by lia.
      assert (0 < 2 ^ (EB - ex)) by (apply Z.pow_pos_nonneg; lia). nia. }
    apply Z.pow_lt_mono_r_iff in T; lia. }
  assert (L1 : e1 <= EB) by lia.
  assert (G1 : ex <= e1) by lia.
  set (b := KB * 2 ^ (EB - e1)).
  assert (Pn : 0 < 2 ^ (e1 - ex)) by (apply Z.pow_pos_nonneg; lia).
  assert (Pb : 0 < 2 ^ (EB - e1)) by (apply Z.pow_pos_nonneg; lia).
  assert (Hb : KB * 2 ^ (EB - ex) = b * 2 ^ (e1 - ex)).
  { unfold b. rewrite <- Z.mul_assoc, <- Z.pow_add_r by lia.
    do 2 f_equal. lia. }
  assert (B1 : m1 < b).
  { subst m1. apply Z.div_lt_upper_bound; [ assumption | ]. nia. }
  assert (H1 : 0 <= m1) by (subst m1; apply Z.div_pos; lia).
  assert (Br : 0 <= mr <= b) by lia.
  destruct S2 as [(-> & ->) | (-> & Q & ->)].
  - destruct mr as [ | q | q]; [ left; eauto | right | lia ].
    assert (T : (e1 <=? 971)%Z = true) by (apply Z.leb_le; lia).
    rewrite T. exists q, e1. repeat split; [ lia | fold b; lia ].
  - right. change (2 ^ 52) with (Z.pos 4503599627370496).
    cbv iota beta.
    assert (Lt : e1 < EB).
    { destruct (Z.eq_dec e1 EB) as [K | K]; [ exfalso | lia ].
      unfold b in Br. rewrite K, Z.sub_diag in Br.
      change (2 ^ 0) with 1 in Br. lia. }
    assert (T : (e1 + 1 <=? 971)%Z = true) by (apply Z.leb_le; lia).
    rewrite T. eexists. eexists. split; [ reflexivity | ].
    split; [ lia | ].
    assert (Hb' : b = KB * 2 ^ (EB - (e1 + 1)) * 2).
    { unfold b. replace (EB - e1) with (Z.succ (EB - (e1 + 1))) by lia.
      rewrite Z.pow_succ_r by lia. ring. }
    change (Z.pos 4503599627370496) with (2 ^ 52).
    rewrite Q in Br. change (2 ^ 53) with (2 ^ 52 * 2) in Br. lia.
Qed.

(** A representable bound below the exact value stays below the rounded
    one: the result is above the bound on its own grid, or in a higher
    binade. *)
Lemma round_above_bound (mx ex KB EB : Z) (lx : location) :
  0 <= mx -> ex <= EB -> -1074 <= EB -> 0 < KB < 2 ^ 53 ->
  KB * 2 ^ (EB - ex) <= mx ->
  (exists s, binary_round_aux prec emax false mx ex lx = S754_infinity s) \/
  (exists mc ec,
     binary_round_aux prec emax false mx ex lx = S754_finite false mc ec /\
     ((ec <= EB /\ KB * 2 ^ (EB - ec) <= Z.pos mc) \/
      (EB < ec /\ 2 ^ 52 <= Z.pos mc))).
Proof.
  intros Hm Hex HEB HKB Hle.
  destruct (binary_round_aux_exact false mx ex lx Hm)
    as (m1 & mr & m2 & e1 & e2 & E1 & M1 & Hmr & U1 & S2 & R).
  rewrite R. clear R.
  assert (Px : 0 < 2 ^ (EB - ex)) by (apply Z.pow_pos_nonneg; lia).
  assert (Hpos : 0 < mx) by nia.
  set (d := Zdigits2 mx) in *.
  assert (G1 : ex <= e1) by lia.
  assert (Pn : 0 < 2 ^ (e1 - ex)) by (apply Z.pow_pos_nonneg; lia).
  assert (H1 : 0 <= m1) by (subst m1; apply Z.div_pos; lia).
  assert (C : (e1 <= EB /\ KB * 2 ^ (EB - e1) <= m1) \/
              (EB < e1 /\ 2 ^ 52 <= m1)).
  { destruct (Z.le_gt_cases e1 EB) as [L1 | L1]; [ left | right ];
      (split; [ assumption | ]).
    - subst m1. apply Z.div_le_lower_bound; [ assumption | ].
      assert (Pb : 0 < 2 ^ (EB - e1)) by (apply Z.pow_pos_nonneg; lia).
      assert (Hb : KB * 2 ^ (EB - ex) =
                   2 ^ (e1 - ex) * (KB * 2 ^ (EB - e1))).
      { rewrite (Z.mul_comm (2 ^ (e1 - ex))), <- Z.mul_assoc,
          <- Z.pow_add_r by lia.
        do 2 f_equal. lia. }
      lia.
    - assert (E : e1 = d + ex - 53) by lia.
      destruct mx as [ | q | q]; try lia.
      pose proof (F64Round.Zdigits2_bounds q) as [DL _]. fold d in DL.
      subst m1. apply Z.div_le_lower_bound; [ assumption | ].
      rewrite <- Z.pow_add_r by lia.
      replace (e1 - ex + 52) with (d - 1) by lia. exact DL. }
  assert (P52 : 0 < 2 ^ 52) by reflexivity.
  assert (Cr : (e1 <= EB /\ KB * 2 ^ (EB - e1) <= mr) \/
               (EB < e1 /\ 2 ^ 52 <= mr)) by lia.
  assert (Pr : 0 < mr).
  { destruct Cr as [(L1 & K) | (_ & K)]; [ | lia ].
    assert (0 < 2 ^ (EB - e1)) by (apply Z.pow_pos_nonneg; lia). nia. }
  destruct S2 as [(-> & ->) | (-> & Q & ->)].
  - destruct mr as [ | q | q]; try lia.
    destruct (e1 <=? 971)%Z; [ right | left; eauto ].
    exists q, e1. split; [ reflexivity | exact Cr ].
  - change (2 ^ 52) with (Z.pos 4503599627370496). cbv iota beta.
    destruct (e1 + 1 <=? 971)%Z; [ right | left; eauto ].
    eexists. eexists. split; [ reflexivity | ].
    change (Z.pos 4503599627370496) with (2 ^ 52).
    destruct (Z.le_gt_cases (e1 + 1) EB) as [L2 | L2]; [ left | right ];
      (split; [ lia | ]); [ | lia ].
    destruct Cr as [(L1 & K) | (L1 & _)]; [ | lia ].
    rewrite Q in K.
    assert (Hb' : KB * 2 ^ (EB - e1) = KB * 2 ^ (EB - (e1 + 1)) * 2).
    { replace (EB - e1) with (Z.succ (EB - (e1 + 1))) by lia.
      rewrite Z.pow_succ_r by lia. ring. }
    change (2 ^ 53) with (2 ^ 52 * 2) in K. lia.
Qed.

End Rounding.

Section Percentage.

Import F64 F64Facts.

(** The product [p * 100] as the rounding of the exact product. *)
Lemma mul_100_finite (mp : positive) (ep : Z) :
  mul (S754_finite false mp ep) (of_int 100) =
  binary_round_aux prec emax false (Z.pos mp * 7036874417766400) (ep - 46)
                   loc_Exact.
Proof. reflexivity. Qed.

Lemma valid_unit_finite (mp : positive) (ep : Z) :
  valid (S754_finite false mp ep) = true ->
  leb (S754_finite false mp ep) one = true ->
  ep <= -52 /\ Z.pos mp < 2 ^ 53 /\ -1074 <= ep /\
  (-1074 < ep -> 2 ^ 52 <= Z.pos mp).
Proof.
  intros Hv H1. apply F64Round.valid_finite in Hv. destruct Hv as [Hcan _].
  apply leb_key in H1. destruct H1 as (_ & _ & K). cbn in K.
  pose proof (F64Round.Zdigits2_bounds mp) as [DL DU].
  set (D := Zdigits2 (Z.pos mp)) in *.
  assert (D53 : D <= 53) by lia.
  split; [ lia | ]. split; [ | split; [ lia | ] ].
  - apply Z.lt_le_trans with (1 := DU). apply Z.pow_le_mono_r; lia.
  - intros G. assert (D = 53) by lia.
    replace 52 with (D - 1) by lia. exact DL.
Qed.

(** The tenths of a percent shown for a probability below 0.35. *)
Lemma tenths_low (mp : positive) (ep : Z) (mc : positive) (ec : Z) :
  valid (S754_finite false mp ep) = true ->
  leb (S754_finite false mp ep) one = true ->
  ltb (S754_finite false mp ep) lit_0_35 = true ->
  mul (S754_finite false mp ep) (of_int 100) = S754_finite false mc ec ->
  ec <= -46 ->
  round_half_even (Z.pos mc * 10) (2 ^ (- ec)) <= 350.
Proof.
  intros Hv H1 Hlt Hc Hec.
  destruct (valid_unit_finite mp ep Hv H1) as (Hep & Hmp & Hmin & Hnorm).
  apply ltb_key in Hlt. destruct Hlt as (_ & _ & K). cbn in K.
  rewrite mul_100_finite in Hc.
  change (2 ^ 53) with 9007199254740992 in Hmp.
  destruct (round_below_bound (Z.pos mp * 7036874417766400) (ep - 46)
              4925812092436480 (-47) loc_Exact)
    as [(s & R) | (mc' & ec' & R & Le & Lm)];
    try lia; try (rewrite R in Hc; discriminate).
  { replace (-47 - (ep - 46)) with (- 1 - ep) by lia.
    destruct (Z.eq_dec ep (-54)) as [Q | Q].
    - subst ep. change (2 ^ (-1 - -54)) with 9007199254740992. lia.
    - assert (S : 2 ^ 54 <= 2 ^ (-1 - ep)) by (apply Z.pow_le_mono_r; lia).
      change (2 ^ 54) with 18014398509481984 in S. lia. }
  rewrite R in Hc. injection Hc as -> ->.
  assert (TP : 0 < 2 ^ (-47 - ec)) by (apply Z.pow_pos_nonneg; lia).
  assert (D : 2 ^ (- ec) = 2 ^ 47 * 2 ^ (-47 - ec)).
  { rewrite <- Z.pow_add_r by lia. f_equal. lia. }
  change (2 ^ 47) with 140737488355328 in D.
  apply round_half_even_bounds with (lo := 0); lia.
Qed.

(** The tenths shown for a probability from 0.35 up to, not including,
    0.65. *)
Lemma tenths_moderate (mp : positive) (ep : Z) (mc : positive) (ec : Z) :
  valid (S754_finite false mp ep) = true ->
  leb (S754_finite false mp ep) one = true ->
  leb lit_0_35 (S754_finite false mp ep) = true ->
  ltb (S754_finite false mp ep) lit_0_65 = true ->
  mul (S754_finite false mp ep) (of_int 100) = S754_finite false mc ec ->
  ec <= -46 ->
  350 <= round_half_even (Z.pos mc * 10) (2 ^ (- ec)) <= 650.
Proof.
  intros Hv H1 Hge Hlt Hc Hec.
  destruct (valid_unit_finite mp ep Hv H1) as (Hep & Hmp & Hmin & Hnorm).
  apply ltb_key in Hlt. destruct Hlt as (_ & _ & K). cbn in K.
  apply leb_key in Hge. destruct Hge as (_ & _ & G). cbn in G.
  rewrite mul_100_finite in Hc.
  change (2 ^ 53) with 9007199254740992 in Hmp.
  change (2 ^ 52) with 4503599627370496 in Hnorm.
  split.
  - destruct (round_above_bound (Z.pos mp * 7036874417766400) (ep - 46)
                4925812092436479 (-47) loc_Exact)
      as [(s & R) | (mc' & ec' & R & C)];
      try lia; try (rewrite R in Hc; discriminate).
    { replace (-47 - (ep - 46)) with (- 1 - ep) by lia.
      assert (Q : ep = -54 \/ ep = -53 \/ ep = -52) by lia.
      destruct Q as [-> | [-> | ->]].
      - change (2 ^ (-1 - -54)) with 9007199254740992. lia.
      - change (2 ^ (-1 - -53)) with 4503599627370496. lia.
      - change (2 ^ (-1 - -52)) with 2251799813685248. lia. }
    rewrite R in Hc. injection Hc as -> ->.
    apply round_half_even_ge; [ apply Z.pow_pos_nonneg; lia | ].
    destruct C as [(Le & Lm) | (Le & Lm)].
    + assert (TP : 0 < 2 ^ (-47 - ec)) by (apply Z.pow_pos_nonneg; lia).
      assert (D : 2 ^ (- ec) = 2 ^ 47 * 2 ^ (-47 - ec)).
      { rewrite <- Z.pow_add_r by lia. f_equal. lia. }
      change (2 ^ 47) with 140737488355328 in D. lia.
    + assert (ec = -46) by lia. subst ec.
      change (2 ^ (- -46)) with 70368744177664.
      change (2 ^ 52) with 4503599627370496 in Lm. lia.
  - destruct (round_below_bound (Z.pos mp * 7036874417766400) (ep - 46)
                4573968371548160 (-46) loc_Exact)
      as [(s & R) | (mc' & ec' & R & Le & Lm)];
      try lia; try (rewrite R in Hc; discriminate).
    { replace (-46 - (ep - 46)) with (- ep) by lia.
      destruct (Z.eq_dec ep (-53)) as [Q | Q].
      - subst ep. change (2 ^ (- -53)) with 9007199254740992. lia.
      - assert (S : 2 ^ 54 <= 2 ^ (- ep)) by (apply Z.pow_le_mono_r; lia).
        change (2 ^ 54) with 18014398509481984 in S. lia. }
    rewrite R in Hc. injection Hc as -> ->.
    assert (TP : 0 < 2 ^ (-46 - ec)) by (apply Z.pow_pos_nonneg; lia).
    assert (D : 2 ^ (- ec) = 2 ^ 46 * 2 ^ (-46 - ec)).
    { rewrite <- Z.pow_add_r by lia. f_equal. lia. }
    change (2 ^ 46) with 70368744177664 in D.
    apply round_half_even_bounds with (lo := 0); lia.
Qed.

(** From 0.65 up the product is at least 65. *)
Lemma mul_100_ge_65 (mp : positive) (ep : Z) (mc : positive) (ec : Z) :
  valid (S754_finite false mp ep) = true ->
  leb (S754_finite false mp ep) one = true ->
  leb lit_0_65 (S754_finite false mp ep) = true ->
  mul (S754_finite false mp ep) (of_int 100) = S754_finite false mc ec ->
  ec <= -46 ->
  65 * 2 ^ (- ec) <= Z.pos mc.
Proof.
  intros Hv H1 Hge Hc Hec.
  destruct (valid_unit_finite mp ep Hv H1) as (Hep & Hmp & Hmin & Hnorm).
  apply leb_key in Hge. destruct Hge as (_ & _ & G). cbn in G.
  rewrite mul_100_finite in Hc.
  change (2 ^ 53) with 9007199254740992 in Hmp.
  change (2 ^ 52) with 4503599627370496 in Hnorm.
  destruct (round_above_bound (Z.pos mp * 7036874417766400) (ep - 46)
              4573968371548160 (-46) loc_Exact)
    as [(s & R) | (mc' & ec' & R & C)];
    try lia; try (rewrite R in Hc; discriminate).
  { replace (-46 - (ep - 46)) with (- ep) by lia.
    assert (Q : ep = -53 \/ ep = -52) by lia.
    destruct Q as [-> | ->].
    - change (2 ^ (- -53)) with 9007199254740992. lia.
    - change (2 ^ (- -52)) with 4503599627370496. lia. }
  rewrite R in Hc. injection Hc as -> ->.
  destruct C as [(Le & Lm) | (Le & Lm)]; [ | lia ].
  assert (TP : 0 < 2 ^ (-46 - ec)) by (apply Z.pow_pos_nonneg; lia).
  assert (D : 2 ^ (- ec) = 2 ^ 46 * 2 ^ (-46 - ec)).
  { rewrite <- Z.pow_add_r by lia. f_equal. lia. }
  change (2 ^ 46) with 70368744177664 in D. lia.
Qed.

(** The tenths shown for a probability of 0.65 or more. *)
Lemma tenths_high (mp : positive) (ep : Z) (mc : positive) (ec : Z) :
  valid (S754_finite false mp ep) = true ->
  leb (S754_finite false mp ep) one = true ->
  leb lit_0_65 (S754_finite false mp ep) = true ->
  mul (S754_finite false mp ep) (of_int 100) = S754_finite false mc ec ->
  ec <= -46 ->
  650 <= round_half_even (Z.pos mc * 10) (2 ^ (- ec)).
Proof.
  intros Hv H1 Hge Hc Hec.
  pose proof (mul_100_ge_65 mp ep mc ec Hv H1 Hge Hc Hec) as L.
  assert (0 < 2 ^ (- ec)) by (apply Z.pow_pos_nonneg; lia).
  apply round_half_even_ge; lia.
Qed.

End Percentage.

Section Badge.

Import F64 F64Facts.

(** From 0.35 up the product does not round to zero. *)
Lemma mul_100_not_zero (mp : positive) (ep : Z) (s : bool) :
  valid (S754_finite false mp ep) = true ->
  leb (S754_finite false mp ep) one = true ->
  leb lit_0_35 (S754_finite false mp ep) = true ->
  mul (S754_finite false mp ep) (of_int 100) <> S754_zero s.
Proof.
  intros Hv H1 Hge Hc.
  destruct (valid_unit_finite mp ep Hv H1) as (Hep & Hmp & Hmin & Hnorm).
  apply leb_key in Hge. destruct Hge as (_ & _ & G). cbn in G.
  rewrite mul_100_finite in Hc.
  change (2 ^ 53) with 9007199254740992 in Hmp.
  change (2 ^ 52) with 4503599627370496 in Hnorm.
  destruct (round_above_bound (Z.pos mp * 7036874417766400) (ep - 46)
              4925812092436479 (-47) loc_Exact)
    as [(s' & R) | (mc' & ec' & R & C)];
    try lia; try (rewrite R in Hc; discriminate).
  replace (-47 - (ep - 46)) with (- 1 - ep) by lia.
  assert (Q : ep = -54 \/ ep = -53 \/ ep = -52) by lia.
  destruct Q as [-> | [-> | ->]].
  - change (2 ^ (-1 - -54)) with 9007199254740992. lia.
  - change (2 ^ (-1 - -53)) with 4503599627370496. lia.
  - change (2 ^ (-1 - -52)) with 2251799813685248. lia.
Qed.

(** The tenths of a percent the badge shows, tier by tier. *)
Lemma tenths_by_tier (p : float) (n : Z) :
  valid p = true -> leb zero p = true -> leb p one = true ->
  (forall s, mul p (of_int 100) = S754_zero s -> n = 0) ->
  (forall s mc ec, mul p (of_int 100) = S754_finite s mc ec ->
     ec <= -46 /\ n = round_half_even (Z.pos mc * 10) (2 ^ (- ec))) ->
  (risk_label (risk_tier p) = "Low Risk" -> n <= 350) /\
  (risk_label (risk_tier p) = "Moderate Risk" -> 350 <= n <= 650) /\
  (risk_label (risk_tier p) = "High Risk" -> 650 <= n).
Proof.
  intros Hv H0 H1 Nz Nf.
  destruct (F64Round.mul_100_range p Hv H0 H1) as (R0 & R1).
  destruct p as [s | s | | s mp ep]; try discriminate.
  - assert (E : n = 0) by (apply (Nz (xorb s false)); reflexivity).
    assert (T : risk_tier (S754_zero s) = low_risk)
      by (destruct s; reflexivity).
    rewrite T, E. cbn. repeat split; intros; try discriminate; lia.
  - destruct s; discriminate.
  - destruct s; [ discriminate | ].
    destruct (mul (S754_finite false mp ep) (of_int 100))
      as [s' | s' | | s' mc ec] eqn:C.
    + assert (E : n = 0) by (apply (Nz s'); reflexivity).
      destruct (risk_tier_cases (S754_finite false mp ep) eq_refl)
        as [(T & A) | [(T & A & B) | (T & A)]]; rewrite T; cbn;
        repeat split; intros; try discriminate; try lia; exfalso.
      all: first
        [ exact (mul_100_not_zero mp ep s' Hv H1 A C)
        | exact (mul_100_not_zero mp ep s' Hv H1
                   (leb_trans _ _ _ lit_0_35_le_lit_0_65 A) C) ].
    + destruct s'; discriminate.
    + discriminate.
    + destruct s'; [ discriminate | ].
      destruct (Nf false mc ec eq_refl) as (Hec & ->).
      destruct (risk_tier_cases (S754_finite false mp ep) eq_refl)
        as [(T & A) | [(T & A & B) | (T & A)]]; rewrite T; cbn;
        repeat split; intros; try discriminate.
      all: first
        [ exact (tenths_low mp ep mc ec Hv H1 A C Hec)
        | apply (tenths_moderate mp ep mc ec Hv H1 A B C Hec)
        | exact (tenths_high mp ep mc ec Hv H1 A C Hec) ].
Qed.

(** The whole percent shown for a greatest probability of 0.65 or
    more. *)
Lemma percent_high (best : float) (n : Z) :
  valid best = true -> leb zero best = true -> leb best one = true ->
  leb lit_0_65 best = true ->
  (forall s, mul best (of_int 100) = S754_zero s -> n = 0) ->
  (forall s mc ec, mul best (of_int 100) = S754_finite s mc ec ->
     ec <= -46 /\
     n = round_half_even (Z.pos mc * 10 ^ Z.of_nat 0) (2 ^ (- ec))) ->
  65 <= n.
Proof.
  intros Hv H0 H1 H65 Nz Nf.
  destruct (F64Round.mul_100_range best Hv H0 H1) as (R0 & R1).
  pose proof (leb_trans _ _ _ lit_0_35_le_lit_0_65 H65) as H35.
  destruct best as [s | s | | s mp ep].
  - destruct s; vm_compute in H65; discriminate H65.
  - destruct s; discriminate.
  - discriminate.
  - destruct s; [ discriminate | ].
    destruct (mul (S754_finite false mp ep) (of_int 100))
      as [s' | s' | | s' mc ec] eqn:C.
    + exfalso. exact (mul_100_not_zero mp ep s' Hv H1 H35 C).
    + destruct s'; discriminate.
    + discriminate.
    + destruct s'; [ discriminate | ].
      destruct (Nf false mc ec eq_refl) as (Hec & ->).
      pose proof (mul_100_ge_65 mp ep mc ec Hv H1 H65 C Hec) as L.
      assert (0 < 2 ^ (- ec)) by (apply Z.pow_pos_nonneg; lia).
      change (10 ^ Z.of_nat 0) with 1. rewrite Z.mul_1_r.
      apply round_half_even_ge; lia.
Qed.

End Badge.

(** X11. For class probabilities in [0,1] the "AI Confidence" metric
    reads a whole number from 0 to 100 followed by a percent sign: never
    "nan%", never more than 100 (a minus sign is printed only for the
    negative zero). Beside a "High Risk" badge it reads at least 65. *)
Theorem X11_confidence_text pow artifact c w m p0 p1 :
  served artifact c = inr m ->
  predict_btn w = true ->
  predict_proba m (input_data pow w) = (p0, p1) ->
  F64.valid p0 = true -> F64.valid p1 = true ->
  F64.leb F64.zero p0 = true -> F64.leb p0 F64.one = true ->
  F64.leb F64.zero p1 = true -> F64.leb p1 F64.one = true ->
  exists (r : assessment) (n : Z),
    results (trace (snd (run pow artifact c w))) = [r] /\
    0 <= n <= 100 /\
    confidence_text r =
      sign_text (signbit (confidence r)) ++ str_int n ++ "%" /\
    (signbit (confidence r) = true -> confidence r = S754_zero true) /\
    (risk_label (shown_tier r) = "High Risk" -> 65 <= n).
Proof.
  intros Hs Hb Hp V0 V1 L0 U0 L1 U1.
  rewrite (run_pressed pow artifact c w m Hs Hb). cbn [snd trace].
  rewrite results_app, results_load_events. cbn [results app].
  rewrite Hp. cbn [fst snd].
  destruct (py_max_pair p0 p1) as (best & _ & Eb & Hor & _ & B1);
    [ exact (F64Facts.leb_not_nan_r _ _ L0)
    | exact (F64Facts.leb_not_nan_r _ _ L1) | ].
  rewrite <- Eb.
  assert (B : F64.valid best = true /\ F64.leb F64.zero best = true /\
              F64.leb best F64.one = true)
    by (destruct Hor as [E | E]; rewrite E; auto).
  destruct B as (Vb & Lb & Ub).
  destruct (F64Round.mul_100_range best Vb Lb Ub) as (R0 & R1).
  destruct (format_f_percent 0 _ R0 R1 (mul_mantissa best (F64.of_int 100)))
    as (n & Hn & Hf & Hz & Nz & Nf).
  eexists. exists n. split; [ reflexivity | ].
  unfold confidence_text. cbn [confidence shown_tier].
  split; [ cbn in Hn; lia | split; [ | split; [ exact Hz | ] ] ].
  - rewrite Hf. unfold fixed. cbn [Z.of_nat].
    change (10 ^ 0) with 1. rewrite Z.div_1_r, append_nil_r.
    apply append_assoc.
  - intros T.
    apply (risk_label_iff p1 (F64Facts.leb_not_nan_r _ _ L1)) in T.
    apply (percent_high best n Vb Lb Ub); try assumption.
    exact (F64Facts.leb_trans _ _ _ T B1).
Qed.

Lemma X11_witness :
  exists (r : assessment) (n : Z),
    results (trace (snd (run pow_exact (inr demo_model) None demo_widgets)))
      = [r] /\
    0 <= n <= 100 /\
    confidence_text r =
      sign_text (signbit (confidence r)) ++ str_int n ++ "%" /\
    (signbit (confidence r) = true -> confidence r = S754_zero true) /\
    (risk_label (shown_tier r) = "High Risk" -> 65 <= n).
Proof.
  exact (X11_confidence_text pow_exact (inr demo_model) None demo_widgets
           demo_model F64.lit_0_2 F64.lit_0_8
           eq_refl eq_refl eq_refl eq_refl eq_refl
           eq_refl eq_refl eq_refl eq_refl).
Defined.

(** X12. For a positive-class probability that is a double in [0,1] the
    percentage in the badge reads a decimal with one place from 0.0 to
    100.0 followed by a percent sign, and it agrees with the tier beside
    it: at most 35.0 under "Low Risk", from 35.0 to 65.0 under "Moderate
    Risk", at least 65.0 under "High Risk". *)
Theorem X12_badge_percentage pow artifact c w m p :
  served artifact c = inr m ->
  predict_btn w = true ->
  snd (predict_proba m (input_data pow w)) = p ->
  F64.valid p = true ->
  F64.leb F64.zero p = true -> F64.leb p F64.one = true ->
  exists (r : assessment) (n : Z),
    results (trace (snd (run pow artifact c w))) = [r] /\
    0 <= n <= 1000 /\
    probability_text r =
      sign_text (signbit (F64.mul p (F64.of_int 100))) ++
      str_int (n / 10) ++ "." ++ str_int (n mod 10) ++ "%" /\
    (signbit (F64.mul p (F64.of_int 100)) = true -> p = S754_zero true) /\
    (risk_label (shown_tier r) = "Low Risk" -> n <= 350) /\
    (risk_label (shown_tier r) = "Moderate Risk" -> 350 <= n <= 650) /\
    (risk_label (shown_tier r) = "High Risk" -> 650 <= n).
Proof.
  intros Hs Hb Hp Vp Lp Up.
  rewrite (run_pressed pow artifact c w m Hs Hb). cbn [snd trace].
  rewrite results_app, results_load_events. cbn [results app].
  rewrite Hp.
  destruct (F64Round.mul_100_range p Vp Lp Up) as (R0 & R1).
  destruct (format_f_percent 1 _ R0 R1 (mul_mantissa p (F64.of_int 100)))
    as (n & Hn & Hf & Hz & Nz & Nf).
  eexists. exists n. split; [ reflexivity | ].
  unfold probability_text. cbn [probability shown_tier].
  split; [ cbn in Hn; lia | split; [ | split ] ].
  - rewrite Hf. unfold fixed. cbn [Z.of_nat last_digits Pos.of_succ_nat].
    change (10 ^ 1) with 10. cbn [append].
    rewrite !append_assoc. reflexivity.
  - intros S. specialize (Hz S).
    destruct p as [s | s | | s mp ep].
    + destruct s; [ reflexivity | vm_compute in Hz; discriminate ].
    + destruct s; discriminate.
    + discriminate.
    + exfalso. destruct s; [ discriminate | ].
      unfold F64.mul, SFmul in Hz. rewrite F64Round.of_int_100 in Hz.
      cbn [xorb] in Hz.
      pose proof (binary_round_aux_sign false
                    (Z.pos (mp * 7036874417766400)) (ep + -46) loc_Exact
                    ltac:(lia)) as N.
      rewrite Hz in N. discriminate.
  - apply tenths_by_tier; assumption.
Qed.

Lemma X12_witness :
  exists (r : assessment) (n : Z),
    results (trace (snd (run pow_exact (inr demo_model) None demo_widgets)))
      = [r] /\
    0 <= n <= 1000 /\
    probability_text r =
      sign_text (signbit (F64.mul F64.lit_0_8 (F64.of_int 100))) ++
      str_int (n / 10) ++ "." ++ str_int (n mod 10) ++ "%" /\
    (signbit (F64.mul F64.lit_0_8 (F64.of_int 100)) = true ->
     F64.lit_0_8 = S754_zero true) /\
    (risk_label (shown_tier r) = "Low Risk" -> n <= 350) /\
    (risk_label (shown_tier r) = "Moderate Risk" -> 350 <= n <= 650) /\
    (risk_label (shown_tier r) = "High Risk" -> 650 <= n).
Proof.
  exact (X12_badge_percentage pow_exact (inr demo_model) None demo_widgets
           demo_model F64.lit_0_8 eq_refl eq_refl eq_refl
           eq_refl eq_refl eq_refl).
Defined.

(** The rational a positive double denotes, as the fraction [format_f]
    rounds. *)
Lemma to_Q_ratio (m : positive) (e : Z) (v : Q) :
  F64.to_Q (S754_finite false m e) = Some v ->
  exists den : positive,
    Z.pos den = 2 ^ Z.max (- e) 0 /\
    (v == (Z.pos m * 2 ^ Z.max e 0) # den)%Q.
Proof.
  unfold F64.to_Q. intros H. injection H as <-.
  destruct e as [ | p | p].
  - exists 1%positive. split; [ reflexivity | ].
    change (Z.max 0 0) with 0. change (2 ^ 0) with 1.
    rewrite Z.mul_1_r. reflexivity.
  - exists 1%positive. split; [ reflexivity | ].
    change (Z.max (Z.pos p) 0) with (Z.pos p). reflexivity.
  - exists (2 ^ p)%positive. split.
    + change (Z.max (- Z.neg p) 0) with (Z.pos p). apply Pos2Z.inj_pow.
    + change (Z.max (Z.neg p) 0) with 0. change (2 ^ 0) with 1.
      rewrite Z.mul_1_r. reflexivity.
Qed.

(** X13. With the widgets in their ranges the bmi shown, in the caption
    under the weight and in the "BMI Status" metric, is a decimal with
    one place between 6.0 and 139.0, and it is within 0.05 (and the
    tolerance of the computation) of w / (h/100)^2. *)
Theorem X13_bmi_text pow (w : widgets) :
  pow_faithful pow ->
  in_range w = true ->
  exists n : Z,
    60 <= n <= 1390 /\
    bmi_text (bmi pow w) = str_int (n / 10) ++ "." ++ str_int (n mod 10) /\
    (Qabs ((n # 10) - bmi_exact (height w) (weight w))
       <= (1 # 20) + tolerance)%Q.
Proof.
  intros Hpow Hr. apply in_range_spec in Hr.
  destruct Hr as (_ & Hh & Hw & _).
  destruct (bmi_in_range_finite pow w Hpow Hh Hw)
    as (v & m & e & E & Hv & L & U & Hd).
  rewrite E in Hv |- *.
  destruct (to_Q_ratio m e v Hv) as (den & Hden & V).
  set (N := Z.pos m * 2 ^ Z.max e 0) in *.
  pose proof (round_half_even_near (N * 10) (Z.pos den) ltac:(lia)) as Near.
  set (n := round_half_even (N * 10) (Z.pos den)) in *.
  exists n.
  rewrite V in L, U.
  unfold Qlt in L, U. cbn [Qnum Qden] in L, U.
  split; [ | split ].
  - apply round_half_even_bounds; lia.
  - unfold bmi_text. cbn [format_f sign_text]. fold N. rewrite <- Hden.
    change (10 ^ Z.of_nat 1) with 10. fold n.
    unfold fixed. cbn [Z.of_nat last_digits Pos.of_succ_nat append].
    change (10 ^ 1) with 10. reflexivity.
  - assert (A : (Qabs ((n # 10) - v) <= 1 # 20)%Q).
    { rewrite V. apply Qabs_Qle_condition.
      unfold Qle, Qminus, Qplus, Qopp. cbn [Qnum Qden].
      rewrite !Pos2Z.inj_mul. split; lia. }
    apply Qabs_Qle_condition in A. apply Qabs_Qle_condition in Hd.
    apply Qabs_Qle_condition. lra.
Qed.

Lemma X13_witness :
  exists n : Z,
    60 <= n <= 1390 /\
    bmi_text (bmi pow_exact demo_widgets) =
      str_int (n / 10) ++ "." ++ str_int (n mod 10) /\
    (Qabs ((n # 10) - bmi_exact 165 70) <= (1 # 20) + tolerance)%Q.
Proof.
  exact (X13_bmi_text pow_exact demo_widgets pow_exact_faithful eq_refl).
Defined.

(** X14. Outside [0,1] the tier is still decided by the two thresholds: a
    negative probability (minus infinity included) is "Low Risk", one
    above 1 (infinity included) is "High Risk", and NaN, for which both
    tests fail, is "High Risk". *)
Theorem X14_tier_outside_unit_interval (p : F64.float) :
  (F64.ltb p F64.zero = true -> risk_tier p = low_risk) /\
  (F64.ltb F64.one p = true -> risk_tier p = high_risk) /\
  (F64.is_nan p = true -> risk_tier p = high_risk).
Proof.
  split; [ | split ].
  - intros H. unfold risk_tier.
    assert (T : F64.ltb p F64.lit_0_35 = true).
    { apply F64Facts.ltb_leb_trans with (1 := H). reflexivity. }
    rewrite T. reflexivity.
  - intros H. apply ltb_leb in H.
    assert (T : F64.leb F64.lit_0_65 p = true).
    { apply F64Facts.leb_trans with (2 := H). reflexivity. }
    pose proof (F64Facts.leb_trans _ _ _ lit_0_35_le_lit_0_65 T) as T'.
    apply F64Facts.leb_ltb_false in T, T'.
    unfold risk_tier. rewrite T', T. reflexivity.
  - destruct p; try discriminate. reflexivity.
Qed.

(** ** Numerals *)

Lemma int_of_str_int (z : Z) : int_of_str (str_int z) = Some z.
Proof.
  unfold int_of_str, str_int. rewrite NilZero.isi.
  - cbn. f_equal. apply DecimalZ.of_to.
  - destruct z; cbn; try discriminate.
    intros K. injection K as K. exact (DecimalPos.Unsigned.to_uint_nonnil _ K).
  - destruct z; cbn; try discriminate.
    intros K. injection K as K. exact (DecimalPos.Unsigned.to_uint_nonnil _ K).
Qed.

Lemma str_int_minus (z : Z) :
  (exists t, str_int z = "-" ++ t) <-> z < 0.
Proof.
  unfold str_int. destruct z as [ | q | q]; cbn.
  - split; [ intros (t & K); discriminate | lia ].
  - split; [ intros (t & K) | lia ]. exfalso.
    destruct (Pos.to_uint q); cbn in K; discriminate.
  - split; [ lia | intros _; eexists; reflexivity ].
Qed.

(** X15. The "Pulse Pressure" metric shows the derived feature itself: its
    text reads back as ap_hi - ap_lo, two runs show the same text only
    for the same difference, and the text starts with a minus sign exactly
    when the diastolic value is above the systolic. *)
Theorem X15_pulse_text_round_trip (w : widgets) :
  int_of_str (pulse_text w) = Some (ap_hi w - ap_lo w) /\
  (forall w', pulse_text w = pulse_text w' -> bp_diff w = bp_diff w') /\
  ((exists t, pulse_text w = "-" ++ t) <-> ap_hi w < ap_lo w).
Proof.
  unfold pulse_text. split; [ apply int_of_str_int | split ].
  - intros w' K.
    pose proof (int_of_str_int (bp_diff w)) as A.
    rewrite K, int_of_str_int in A. congruence.
  - rewrite str_int_minus. unfold bp_diff. lia.
Qed.

(** ** The bmi shown and its category *)

Section Canonical.

Import F64 F64Facts.

(** Where the mantissa handed to [binary_round_aux] is long enough for the
    format, the result is normalised: above the least exponent its
    mantissa has 53 bits. *)
Lemma binary_round_aux_normal (sx : bool) (mx ex : Z) (lx : location) :
  0 <= mx ->
  ex <= Z.max (Zdigits2 mx + ex - 53) (-1074) ->
  forall s m e,
    binary_round_aux prec emax sx mx ex lx = S754_finite s m e ->
    -1074 < e -> 2 ^ 52 <= Z.pos m.
Proof.
  intros Hm Hex s m e.
  destruct (binary_round_aux_exact sx mx ex lx Hm)
    as (m1 & mr & m2 & e1 & e2 & E1 & M1 & Hmr & U1 & S2 & R).
  rewrite R. clear R.
  set (d := Zdigits2 mx) in *.
  assert (E1' : e1 = Z.max (d + ex - 53) (-1074)) by lia.
  assert (L : -1074 < e1 -> 2 ^ 52 <= m1).
  { intros G. assert (E : e1 - ex = d - 53) by lia.
    destruct mx as [ | q | q]; [ cbn in d; lia | | lia ].
    pose proof (F64Round.Zdigits2_bounds q) as [DL _]. fold d in DL.
    subst m1. rewrite E.
    apply Z.div_le_lower_bound; [ apply Z.pow_pos_nonneg; lia | ].
    rewrite <- Z.pow_add_r by lia.
    replace (d - 53 + 52) with (d - 1) by lia. exact DL. }
  destruct S2 as [(-> & ->) | (-> & Q & ->)].
  - destruct mr as [ | q | q]; try discriminate.
    destruct (e1 <=? 971)%Z; [ | discriminate ].
    intros K. injection K as _ <- <-. intros G. specialize (L G). lia.
  - change (2 ^ 52) with (Z.pos 4503599627370496). cbv iota beta.
    destruct (e1 + 1 <=? 971)%Z; [ | discriminate ].
    intros K. injection K as _ <- _. intros _. lia.
Qed.

(** The quotient [SFdiv_core_binary] hands to the rounding is long
    enough. *)
Lemma div_core_long (m1 m2 : positive) (e1 e2 : Z) :
  forall q e' l,
    SFdiv_core_binary prec emax (Z.pos m1) e1 (Z.pos m2) e2 = (q, e', l) ->
    0 <= q /\ e' <= Z.max (Zdigits2 q + e' - 53) (-1074).
Proof.
  intros q e' l. unfold SFdiv_core_binary, fexp, emin, prec, emax.
  change (3 - 1024 - 53) with (-1074).
  pose proof (F64Round.Zdigits2_bounds m1) as [D1 _].
  pose proof (F64Round.Zdigits2_bounds m2) as [_ D2].
  set (d1 := Zdigits2 (Z.pos m1)) in *.
  set (d2 := Zdigits2 (Z.pos m2)) in *.
  assert (P1 : 0 < d1) by (unfold d1; cbn; lia).
  assert (P2 : 0 < d2) by (unfold d2; cbn; lia).
  set (F := Z.max (d1 + e1 - (d2 + e2) - 53) (-1074)).
  set (E := Z.min F (e1 - e2)).
  set (s := e1 - e2 - E).
  assert (S0 : 0 <= s) by lia.
  set (m' := match s with
             | 0 => Z.pos m1
             | Z.pos _ => Z.shiftl (Z.pos m1) s
             | Z.neg _ => 0
             end).
  assert (Hm' : m' = Z.pos m1 * 2 ^ s).
  { unfold m'. destruct s as [ | p | p] eqn:Es; try lia.
    rewrite Z.shiftl_mul_pow2 by lia. reflexivity. }
  assert (Ps : 0 < 2 ^ s) by (apply Z.pow_pos_nonneg; lia).
  pose proof (Z_div_mod m' (Z.pos m2) eq_refl) as D.
  destruct (Z.div_eucl m' (Z.pos m2)) as [q0 r0].
  intros K. injection K as <- <- _.
  assert (Q0 : 0 <= q0) by nia.
  split; [ assumption | ].
  destruct (Z.le_gt_cases E (-1074)) as [ | G]; [ lia | ].
  assert (HF : F = d1 + e1 - (d2 + e2) - 53) by lia.
  assert (Hs : 53 + d2 - d1 <= s) by lia.
  assert (B : 2 ^ 52 <= q0).
  { assert (T : Z.pos m2 * 2 ^ 52 <= m').
    { rewrite Hm'.
      apply Z.le_trans with (2 ^ d2 * 2 ^ 52).
      - apply Z.mul_le_mono_nonneg_r; [ apply Z.pow_nonneg; lia | lia ].
      - apply Z.le_trans with (2 ^ (d1 - 1) * 2 ^ s).
        + rewrite <- !Z.pow_add_r by lia. apply Z.pow_le_mono_r; lia.
        + apply Z.mul_le_mono_nonneg_r; lia. }
    change (2 ^ 52) with 4503599627370496 in *. nia. }
  destruct q0 as [ | q | q]; try lia.
  pose proof (F64Round.Zdigits2_bounds q) as [_ DU].
  assert (53 <= Zdigits2 (Z.pos q)).
  { assert (T : 2 ^ 52 < 2 ^ Zdigits2 (Z.pos q)) by lia.
    apply Z.pow_lt_mono_r_iff in T; [ lia | lia | cbn; lia ]. }
  lia.
Qed.

(** A finite quotient of two finite doubles is normalised. *)
Lemma div_normal (x y : float) s m e :
  div x y = S754_finite s m e ->
  Z.pos m < 2 ^ 53 /\ (-1074 < e -> 2 ^ 52 <= Z.pos m).
Proof.
  unfold div, SFdiv.
  destruct x as [sx | sx | | sx mx ex], y as [sy | sy | | sy my ey];
    try discriminate.
  destruct (SFdiv_core_binary prec emax (Z.pos mx) ex (Z.pos my) ey)
    as [[q e'] l] eqn:C.
  destruct (div_core_long mx my ex ey q e' l C) as (Q0 & QL).
  intros R. split.
  - exact (binary_round_aux_mantissa (xorb sx sy) q e' l Q0 s m e R).
  - exact (binary_round_aux_normal (xorb sx sy) q e' l Q0 QL s m e R).
Qed.

End Canonical.

Section BmiText.

Import F64 F64Facts.

(** Below a threshold [K * 2^-48] in the order of doubles is below it in
    value. *)
Lemma below_threshold (mb : positive) (eb : Z) (K : positive) :
  Z.pos mb < 2 ^ 53 -> 2 ^ 52 <= Z.pos K -> eb < 0 ->
  ltb (S754_finite false mb eb) (S754_finite false K (-48)) = true ->
  Z.pos mb * 2 ^ 48 < Z.pos K * 2 ^ (- eb).
Proof.
  intros Hm HK He H. apply ltb_key in H. destruct H as (_ & _ & H).
  cbn in H.
  destruct (Z.eq_dec eb (-48)) as [-> | N].
  - change (2 ^ (- -48)) with (2 ^ 48).
    assert (0 < 2 ^ 48) by reflexivity. nia.
  - assert (L : eb < -48) by lia.
    assert (S : 2 ^ 49 <= 2 ^ (- eb)) by (apply Z.pow_le_mono_r; lia).
    change (2 ^ 49) with 562949953421312 in S.
    change (2 ^ 48) with 281474976710656.
    change (2 ^ 53) with 9007199254740992 in Hm.
    change (2 ^ 52) with 4503599627370496 in HK. nia.
Qed.

(** At or above a threshold in the order of doubles is at or above it in
    value, for a normalised double. *)
Lemma above_threshold (mb : positive) (eb : Z) (K : positive) :
  (-1074 < eb -> 2 ^ 52 <= Z.pos mb) -> Z.pos K < 2 ^ 53 -> eb < 0 ->
  leb (S754_finite false K (-48)) (S754_finite false mb eb) = true ->
  Z.pos K * 2 ^ (- eb) <= Z.pos mb * 2 ^ 48.
Proof.
  intros Hm HK He H. apply leb_key in H. destruct H as (_ & _ & H).
  cbn in H.
  destruct (Z.eq_dec eb (-48)) as [-> | N].
  - change (2 ^ (- -48)) with (2 ^ 48).
    assert (0 < 2 ^ 48) by reflexivity. nia.
  - assert (L : -48 < eb) by lia.
    assert (S : 2 ^ (- eb) <= 2 ^ 47) by (apply Z.pow_le_mono_r; lia).
    assert (P : 0 < 2 ^ (- eb)) by (apply Z.pow_pos_nonneg; lia).
    assert (M : 2 ^ 52 <= Z.pos mb) by (apply Hm; lia).
    change (2 ^ 47) with 140737488355328 in S.
    change (2 ^ 48) with 281474976710656.
    change (2 ^ 53) with 9007199254740992 in HK.
    change (2 ^ 52) with 4503599627370496 in M. nia.
Qed.

Lemma thresholds_finite :
  lit_18_5 = S754_finite false 5207287069147136 (-48) /\
  of_int 25 = S754_finite false 7036874417766400 (-48) /\
  of_int 30 = S754_finite false 8444249301319680 (-48).
Proof. repeat split. Qed.

(** The tenths the bmi text shows, against each threshold of the
    buckets. *)
Lemma bmi_tenths (mb : positive) (eb : Z) :
  Z.pos mb < 2 ^ 53 -> (-1074 < eb -> 2 ^ 52 <= Z.pos mb) -> eb < 0 ->
  let b := S754_finite false mb eb in
  let n := round_half_even (Z.pos mb * 10) (2 ^ (- eb)) in
  (ltb b lit_18_5 = true -> n <= 185) /\
  (leb lit_18_5 b = true -> 185 <= n) /\
  (ltb b (of_int 25) = true -> n <= 250) /\
  (leb (of_int 25) b = true -> 250 <= n) /\
  (ltb b (of_int 30) = true -> n <= 300) /\
  (leb (of_int 30) b = true -> 300 <= n).
Proof.
  intros Hm Hn He b n.
  destruct thresholds_finite as (-> & -> & ->).
  assert (P : 0 < 2 ^ (- eb)) by (apply Z.pow_pos_nonneg; lia).
  assert (C52 : 2 ^ 52 = 4503599627370496) by reflexivity.
  assert (C53 : 2 ^ 53 = 9007199254740992) by reflexivity.
  assert (C48 : 2 ^ 48 = 281474976710656) by reflexivity.
  repeat split; intros H; unfold n, b in *.
  - apply below_threshold in H; try lia.
    apply round_half_even_bounds with (lo := 0); lia.
  - apply above_threshold in H; try lia.
    apply round_half_even_ge; lia.
  - apply below_threshold in H; try lia.
    apply round_half_even_bounds with (lo := 0); lia.
  - apply above_threshold in H; try lia.
    apply round_half_even_ge; lia.
  - apply below_threshold in H; try lia.
    apply round_half_even_bounds with (lo := 0); lia.
  - apply above_threshold in H; try lia.
    apply round_half_even_ge; lia.
Qed.

End BmiText.

(** X16. With the widgets in their ranges the bmi shown agrees with the
    category handed to the classifier and with the "BMI Status" beside
    it: at most 18.5 in category 0, from 18.5 to 25.0 in category 1 (the
    status "Normal"), from 25.0 to 30.0 in category 2, at least 30.0 in
    category 3. *)
Theorem X16_bmi_text_agrees_with_category pow (w : widgets) :
  pow_faithful pow ->
  in_range w = true ->
  exists n : Z,
    bmi_text (bmi pow w) = str_int (n / 10) ++ "." ++ str_int (n mod 10) /\
    (bmi_cat (bmi pow w) = 0 -> n <= 185) /\
    (bmi_cat (bmi pow w) = 1 -> 185 <= n <= 250) /\
    (bmi_cat (bmi pow w) = 2 -> 250 <= n <= 300) /\
    (bmi_cat (bmi pow w) = 3 -> 300 <= n) /\
    (bmi_status (bmi pow w) = "Normal" -> 185 <= n <= 250).
Proof.
  intros Hpow Hr. apply in_range_spec in Hr.
  destruct Hr as (_ & Hh & Hw & _).
  destruct (bmi_in_range_finite pow w Hpow Hh Hw)
    as (v & mb & eb & E & Hv & L & U & _).
  assert (N : Z.pos mb < 2 ^ 53 /\ (-1074 < eb -> 2 ^ 52 <= Z.pos mb)).
  { unfold bmi, int_div_float in E. exact (div_normal _ _ _ _ _ E). }
  destruct N as (Nm & Nn).
  rewrite E in Hv |- *.
  destruct (to_Q_ratio mb eb v Hv) as (den & Hden & V).
  rewrite V in L, U. unfold Qlt in L, U. cbn [Qnum Qden] in L, U.
  assert (He : eb < 0).
  { destruct (Z.lt_ge_cases eb 0) as [ | G]; [ assumption | exfalso ].
    rewrite (Z.max_l eb 0) in U by lia.
    rewrite (Z.max_r (- eb) 0) in Hden by lia.
    change (2 ^ 0) with 1 in Hden.
    assert (M : 2 ^ 52 <= Z.pos mb) by (apply Nn; lia).
    assert (P : 1 <= 2 ^ eb) by (apply Z.pow_le_mono_r with (b := 0); lia || lia).
    change (2 ^ 52) with 4503599627370496 in M. nia. }
  destruct (bmi_tenths mb eb Nm Nn He) as (A0 & A1 & B0 & B1 & C0 & C1).
  exists (round_half_even (Z.pos mb * 10) (2 ^ (- eb))).
  split.
  - unfold bmi_text. cbn [format_f sign_text].
    rewrite (Z.max_r eb 0), (Z.max_l (- eb) 0) by lia.
    change (2 ^ 0) with 1. rewrite Z.mul_1_r.
    change (10 ^ Z.of_nat 1) with 10.
    unfold fixed. cbn [Z.of_nat last_digits Pos.of_succ_nat append].
    change (10 ^ 1) with 10. reflexivity.
  - destruct (bmi_cat_only (S754_finite false mb eb)) as (K0 & K1 & K2 & K3).
    split; [ intros T; auto | ].
    split; [ intros T; apply K1 in T; destruct T; split; auto | ].
    split; [ intros T; apply K2 in T; destruct T; split; auto | ].
    split.
    { intros T. apply K3 in T. destruct T as [T | T]; [ auto | discriminate ]. }
    intros T. unfold bmi_status in T.
    destruct (F64.leb F64.lit_18_5 (S754_finite false mb eb)) eqn:T1;
      [ | discriminate ].
    destruct (F64.ltb (S754_finite false mb eb) (F64.of_int 25)) eqn:T2;
      [ | discriminate ].
    split; auto.
Qed.

Lemma X16_witness :
  exists n : Z,
    bmi_text (bmi pow_exact demo_widgets) =
      str_int (n / 10) ++ "." ++ str_int (n mod 10) /\
    (bmi_cat (bmi pow_exact demo_widgets) = 0 -> n <= 185) /\
    (bmi_cat (bmi pow_exact demo_widgets) = 1 -> 185 <= n <= 250) /\
    (bmi_cat (bmi pow_exact demo_widgets) = 2 -> 250 <= n <= 300) /\
    (bmi_cat (bmi pow_exact demo_widgets) = 3 -> 300 <= n) /\
    (bmi_status (bmi pow_exact demo_widgets) = "Normal" -> 185 <= n <= 250).
Proof.
  exact (X16_bmi_text_agrees_with_category pow_exact demo_widgets
           pow_exact_faithful eq_refl).
Defined.
